(** * AI PDF Analyzer: a shallow embedding of [main.py]

    The development follows the layout of the source file:
    - [PyStr]: the fragment of Python's [str] the program relies on
      ([strip], [startswith], [endswith], [split], slicing, [len]);
    - [Py]: exceptions and the result of a call that may raise;
    - [Analyzer]: [extract_text_from_pdf], [generate_summary],
      [generate_questions], [validate_pdf_upload] and the three upload
      handlers, over the external collaborators (PyMuPDF, pdfplumber, the
      chat-completion client) taken as section variables.

    Of the diagnostic [print] calls, the one that writes the text of an
    exception is modelled, with the encoding of stdout as a parameter: it
    raises when that text cannot be encoded.  The others write fixed ASCII
    text, integers and ASCII-filtered previews (the preview under a [try]
    of its own) and are left out. *)

From Stdlib Require Import List ZArith NArith Lia Bool String Ascii.
From Stdlib Require Import Strings.Byte.
From Stdlib Require Import DecimalString.
Import ListNotations.

Set Implicit Arguments.

(* ================================================================= *)
(** ** Python strings *)

Module PyStr.

(** A Python [str] is a sequence of Unicode code points; [len] and slicing
    count code points, so a character is modelled by its code point. *)
Definition char : Type := N.
Definition str : Type := list char.

(** An ASCII literal of the source as a [str]. *)
Definition lit (s : string) : str :=
  map N_of_ascii (list_ascii_of_string s).

Definition NL : char := 10%N.

Definition len (s : str) : Z := Z.of_nat (List.length s).

(** Truth value of a string in a condition: non-empty. *)
Definition truthy (s : str) : bool :=
  match s with
  | [] => false
  | _ :: _ => true
  end.

(** [str.isspace] on one code point, the set [str.strip()] removes when it
    is called without argument. *)
Definition isspace (c : char) : bool :=
  ((9 <=? c) && (c <=? 13) ||
   (28 <=? c) && (c <=? 32) ||
   (c =? 133) || (c =? 160) || (c =? 5760) ||
   (8192 <=? c) && (c <=? 8202) ||
   (c =? 8232) || (c =? 8233) || (c =? 8239) || (c =? 8287) ||
   (c =? 12288))%N.

Fixpoint lstrip (s : str) : str :=
  match s with
  | [] => []
  | c :: r => if isspace c then lstrip r else s
  end.

Definition rstrip (s : str) : str := rev (lstrip (rev s)).

(** [s.strip()] *)
Definition strip (s : str) : str := lstrip (rstrip s).

(** [s.startswith(p)] *)
Fixpoint startswith (s p : str) {struct p} : bool :=
  match p, s with
  | [], _ => true
  | _ :: _, [] => false
  | a :: p', b :: s' => (b =? a)%N && startswith s' p'
  end.

(** [s.endswith(p)] *)
Definition endswith (s p : str) : bool := startswith (rev s) (rev p).

(** [s.split(sep)] for a one-character separator: always at least one
    piece, empty pieces kept. *)
Fixpoint split (sep : char) (s : str) : list str :=
  match s with
  | [] => [[]]
  | c :: r =>
      if (c =? sep)%N then [] :: split sep r
      else match split sep r with
           | [] => [[c]]
           | l :: ls => (c :: l) :: ls
           end
  end.

(** [s.split()] : maximal runs of non-whitespace characters.  The helper
    returns the run being read at the head of [s] and the later runs. *)
Fixpoint split_ws_go (s : str) : str * list str :=
  match s with
  | [] => ([], [])
  | c :: r =>
      let '(w, ws) := split_ws_go r in
      if isspace c then ([], if truthy w then w :: ws else ws)
      else (c :: w, ws)
  end.

Definition split_ws (s : str) : list str :=
  let '(w, ws) := split_ws_go s in
  if truthy w then w :: ws else ws.

(** Slice bounds: a negative index counts from the end, and every index is
    clamped to [0, len]. *)
Definition slice_index (n i : Z) : nat :=
  Z.to_nat (if (i <? 0)%Z then Z.max 0 (n + i) else Z.min i n).

(** [s[:stop]] *)
Definition slice_to (stop : Z) (s : str) : str :=
  firstn (slice_index (len s) stop) s.

(** [s[start:]] *)
Definition slice_from (start : Z) (s : str) : str :=
  skipn (slice_index (len s) start) s.

(** [f"{n}"] for an integer. *)
Definition format_int (n : Z) : str :=
  lit (NilZero.string_of_int (Z.to_int n)).

End PyStr.

(* ================================================================= *)
(** ** Exceptions and calls that may raise *)

Module Py.
Import PyStr.

(** The exceptions the program distinguishes.  [HTTPException] is the only
    class caught by name; [ValueError] and [Exception] are raised by the
    program itself; [LibraryError] stands for any exception (a subclass of
    [Exception]) raised inside a collaborator, carrying its [str(e)]. *)
Inductive exn : Type :=
| HTTPException (status_code : Z) (detail : str)
| ValueError (msg : str)
| Exception (msg : str)
| LibraryError (msg : str).

Inductive result (A : Type) : Type :=
| Ok (a : A)
| Raise (e : exn).

Arguments Ok {A} a.
Arguments Raise {A} e.

Definition bind {A B : Type} (m : result A) (k : A -> result B) : result B :=
  match m with
  | Ok a => k a
  | Raise e => Raise e
  end.

(** [try: m  except Exception as e: h e] *)
Definition try_except {A : Type} (m : result A) (h : exn -> result A)
  : result A :=
  match m with
  | Ok a => Ok a
  | Raise e => h e
  end.

Definition is_ok {A : Type} (m : result A) : bool :=
  match m with Ok _ => true | Raise _ => false end.

End Py.

Declare Scope py_scope.
Delimit Scope py_scope with py.
Notation "x <- m ;; k" := (Py.bind m (fun x => k))
  (at level 61, m at next level, right associativity) : py_scope.

(* ================================================================= *)
(** ** The application *)

Module Analyzer.
Import PyStr Py.
Local Open Scope py_scope.

(** Configuration *)
Definition MAX_FILE_SIZE_MB : Z := 70.
Definition MAX_FILE_SIZE_BYTES : Z := MAX_FILE_SIZE_MB * 1024 * 1024.

Definition bytes : Type := list byte.
Definition len_bytes (b : bytes) : Z := Z.of_nat (List.length b).

(** An opened PyMuPDF document: for each page index, what
    [doc[page_num].get_text()] does (return a text layer or raise). *)
Definition fitz_doc : Type := list (result str).

(** An opened pdfplumber document: for each page of [pdf.pages], what
    [page.extract_text()] does.  The call returns a string, or [None] for a
    page without characters. *)
Definition plumber_doc : Type := list (result (option str)).

Definition CID_PREFIX : str := lit "(cid:".
Definition NO_TEXT_MSG : str :=
  lit "No text could be extracted from the PDF. The PDF might be image-based or scanned.".
Definition EXTRACT_ERROR_PREFIX : str := lit "Error extracting text from PDF: ".
Definition PRIMARY_FAILED_PREFIX : str := lit "[WARN] PyMuPDF failed: ".
Definition PRIMARY_FAILED_SUFFIX : str := lit ", trying pdfplumber...".

(** A code point no UTF-8 encoder accepts: a surrogate. *)
Definition is_surrogate (c : char) : bool :=
  ((55296 <=? c) && (c <=? 57343))%N.

Definition utf8_encodable (s : str) : bool := negb (existsb is_surrogate s).

Section Extraction.

(** [str(e)] of an [HTTPException] is fixed by the web framework. *)
Variable str_HTTPException : Z -> str -> str.

(** The encoding of the process's stdout: [None] for a text it can
    represent, [Some msg] for a text it cannot, [msg] being the text of
    the [UnicodeEncodeError] that [print] raises then. *)
Variable stdout_rejects : str -> option str.

(** [print(s)] *)
Definition print (s : str) : result unit :=
  match stdout_rejects s with
  | None => Ok tt
  | Some msg => Raise (LibraryError msg)
  end.

Definition str_exn (e : exn) : str :=
  match e with
  | HTTPException c d => str_HTTPException c d
  | ValueError m => m
  | Exception m => m
  | LibraryError m => m
  end.

(** [fitz.open(stream=file_content, filetype="pdf")] *)
Variable fitz_open : bytes -> result fitz_doc.
(** [pdfplumber.open(io.BytesIO(file_content))] *)
Variable pdfplumber_open : bytes -> result plumber_doc.

(** The loop [for page_num in range(len(doc))] of the primary attempt:
    [text] is the accumulator, a page whose text is empty adds nothing. *)
Fixpoint fitz_loop (doc : fitz_doc) (text : str) : result str :=
  match doc with
  | [] => Ok text
  | page :: rest =>
      page_text <- page ;;
      fitz_loop rest
        (if truthy page_text then text ++ (page_text ++ [NL]) else text)
  end.

(** The loop [for page_num, page in enumerate(pdf.pages, 1)] of the
    fallback. *)
Fixpoint plumber_loop (doc : plumber_doc) (text : str) : result str :=
  match doc with
  | [] => Ok text
  | page :: rest =>
      page_text <- page ;;
      plumber_loop rest
        (match page_text with
         | Some t => if truthy t then text ++ (t ++ [NL]) else text
         | None => text
         end)
  end.

(** Body of the first [try]: [Ok (Some s)] when it executes [return s],
    [Ok None] when it reaches its end (quality gate not passed). *)
Definition primary_attempt (file_content : bytes) (text : str)
  : result (option str) :=
  doc <- fitz_open file_content ;;
  text <- fitz_loop doc text ;;
  if truthy (strip text) && negb (startswith (strip text) CID_PREFIX)
  then Ok (Some (strip text))
  else Ok None.

(** Body of the second [try]; the accumulator is reset first. *)
Definition fallback_attempt (file_content : bytes) : result str :=
  let text := [] in
  doc <- pdfplumber_open file_content ;;
  text <- plumber_loop doc text ;;
  if negb (truthy (strip text))
  then Raise (ValueError NO_TEXT_MSG)
  else Ok (strip text).

(** The second [try] with its [except] clause. *)
Definition fallback_try (file_content : bytes) : result str :=
  try_except (fallback_attempt file_content)
    (fun e => Raise (Exception (EXTRACT_ERROR_PREFIX ++ str_exn e))).

(** The line printed by the first [except] clause. *)
Definition primary_failed_line (e : exn) : str :=
  PRIMARY_FAILED_PREFIX ++ str_exn e ++ PRIMARY_FAILED_SUFFIX.

(** The first [except] clause prints the text of the exception before the
    fallback is tried; that [print] is under no [try], so what it raises
    leaves the function. *)
Definition extract_text_from_pdf (file_content : bytes) : result str :=
  let text := [] in
  match primary_attempt file_content text with
  | Ok (Some s) => Ok s
  | Ok None => fallback_try file_content
  | Raise e =>
      _ <- print (primary_failed_line e) ;;
      fallback_try file_content
  end.

End Extraction.

(* ----------------------------------------------------------------- *)
(** *** Generation collaborator *)

(** What a chat-completion request of the program varies in.  The two
    prompt templates are fixed texts around these values; the model name
    and the sampling temperature are constants of the source. *)
Inductive prompt_kind : Type :=
| SummaryPrompt
| QuestionsPrompt (num_questions : Z).

Record chat_request : Type := mk_chat_request {
  req_prompt : prompt_kind;
  req_language : str;
  req_text : str;
  req_max_tokens : Z
}.

Definition NONE_STRIP_MSG : str :=
  lit "'NoneType' object has no attribute 'strip'".

Section Generation.

Variable str_HTTPException : Z -> str -> str.

(** [client.chat.completions.create(...)] followed by
    [.choices[0].message.content]; the content of a message is optional
    and may be [None]. *)
Variable chat_create : chat_request -> result (option str).

(** [content.strip()] on an optional content: an [AttributeError] on
    [None]. *)
Definition strip_content (content : option str) : result str :=
  match content with
  | Some c => Ok (strip c)
  | None => Raise (LibraryError NONE_STRIP_MSG)
  end.

Definition text_to_send (text : str) : str :=
  if (16000 <? len text)%Z then slice_to 16000 text else text.

Definition generate_summary (text language : str) : result str :=
  try_except
    (content <- chat_create
        (mk_chat_request SummaryPrompt language (text_to_send text) 1500) ;;
     strip_content content)
    (fun e => Raise (Exception
       (lit "Error generating summary with OpenAI: "
          ++ str_exn str_HTTPException e))).

Definition generate_questions (text : str) (num_questions : Z)
    (language : str) : result (list str) :=
  try_except
    (content <- chat_create
        (mk_chat_request (QuestionsPrompt num_questions) language
           (text_to_send text) 1000) ;;
     questions_text <- strip_content content ;;
     let questions :=
       map strip
         (filter (fun q => truthy (strip q)) (split NL questions_text)) in
     let questions := filter truthy questions in
     Ok questions)
    (fun e => Raise (Exception
       (lit "Error generating questions with OpenAI: "
          ++ str_exn str_HTTPException e))).

End Generation.

(* ----------------------------------------------------------------- *)
(** *** Request handlers *)

Record UploadFile : Type := mk_upload {
  filename : str;
  content : bytes          (* what [await file.read()] returns *)
}.

Definition validate_pdf_upload (file : option UploadFile) : result unit :=
  match file with
  | None => Raise (HTTPException 400 (lit "No file uploaded"))
  | Some f =>
      if negb (endswith (filename f) (lit ".pdf"))
      then Raise (HTTPException 400 (lit "Only PDF files are allowed"))
      else Ok tt
  end.

(** Attribute access on the upload after validation. *)
Definition the_file (file : option UploadFile) : result UploadFile :=
  match file with
  | Some f => Ok f
  | None => Raise (LibraryError (lit "'NoneType' object has no attribute 'read'"))
  end.

Definition check_file_size (file_content : bytes) : result unit :=
  if (MAX_FILE_SIZE_BYTES <? len_bytes file_content)%Z
  then Raise (HTTPException 400
         (lit "File size exceeds " ++ format_int MAX_FILE_SIZE_MB
            ++ lit " MB limit"))
  else Ok tt.

Definition check_num_questions (num_questions : Z) : result unit :=
  if ((num_questions <? 1) || (50 <? num_questions))%Z
  then Raise (HTTPException 400
         (lit "Number of questions must be between 1 and 50"))
  else Ok tt.

(** [extracted_text[:200] + "..." if len(extracted_text) > 200
     else extracted_text] *)
Definition text_preview_of (extracted_text : str) : str :=
  if (200 <? len extracted_text)%Z
  then slice_to 200 extracted_text ++ lit "..."
  else extracted_text.

Record SummaryResponse : Type := mk_summary_response {
  sr_success : bool;
  sr_filename : str;
  sr_summary : str;
  sr_language : str;
  sr_extracted_chars : Z;
  sr_text_preview : str
}.

Record QuestionsResponse : Type := mk_questions_response {
  qr_success : bool;
  qr_filename : str;
  qr_questions : list str;
  qr_num_questions : Z;
  qr_language : str;
  qr_extracted_chars : Z;
  qr_text_preview : str
}.

Record ExtractResponse : Type := mk_extract_response {
  er_success : bool;
  er_filename : str;
  er_total_characters : Z;
  er_total_words : Z;
  er_first_500_chars : str;
  er_last_500_chars : str;
  er_full_text_length : Z
}.

(** Calls a handler makes to the two stages behind it, in order. *)
Inductive call : Type :=
| CallExtract (file_content : bytes)
| CallSummary (text language : str)
| CallQuestions (text : str) (num_questions : Z) (language : str).

(** A handler run: the calls made, and the response or the exception. *)
Definition handled (A : Type) : Type := (list call * result A)%type.

Definition pure {A : Type} (r : result A) : handled A := ([], r).

Definition calling {A : Type} (c : call) (r : result A) : handled A :=
  ([c], r).

Definition hbind {A B : Type} (m : handled A) (k : A -> handled B)
  : handled B :=
  match m with
  | (t, Ok a) => let '(t', r) := k a in (t ++ t', r)
  | (t, Raise e) => (t, Raise e)
  end.

Notation "x <~ m ;; k" := (hbind m (fun x => k))
  (at level 61, m at next level, right associativity) : py_scope.

(** The strings of each response body, in the order of its keys. *)
Definition summary_strings (r : SummaryResponse) : list str :=
  [sr_filename r; sr_summary r; sr_language r; sr_text_preview r].

Definition questions_strings (r : QuestionsResponse) : list str :=
  qr_filename r :: qr_questions r ++ [qr_language r; qr_text_preview r].

Definition extract_strings (r : ExtractResponse) : list str :=
  [er_filename r; er_first_500_chars r; er_last_500_chars r].

Section Handlers.

Variable str_HTTPException : Z -> str -> str.
Variable stdout_rejects : str -> option str.

(** The text of the [UnicodeEncodeError] raised when a JSON body holding
    these strings is encoded. *)
Variable utf8_error_text : list str -> str.

Variable fitz_open : bytes -> result fitz_doc.
Variable pdfplumber_open : bytes -> result plumber_doc.
Variable chat_create : chat_request -> result (option str).

(** [JSONResponse(content=...)]: the body is rendered when the response
    is built, as JSON text encoded in UTF-8.  The keys are ASCII and the
    other values are booleans and integers, so the strings of the content
    decide whether the encoding raises. *)
Definition json_response {A : Type} (strings : list str) (r : A)
  : result A :=
  if forallb utf8_encodable strings then Ok r
  else Raise (LibraryError (utf8_error_text strings)).

Definition do_extract (file_content : bytes) : handled str :=
  calling (CallExtract file_content)
    (extract_text_from_pdf str_HTTPException stdout_rejects fitz_open
       pdfplumber_open file_content).

Definition do_summary (text language : str) : handled str :=
  calling (CallSummary text language)
    (generate_summary str_HTTPException chat_create text language).

Definition do_questions (text : str) (n : Z) (language : str)
  : handled (list str) :=
  calling (CallQuestions text n language)
    (generate_questions str_HTTPException chat_create text n language).

(** [except HTTPException as e: raise e]
    [except Exception as e: raise HTTPException(500, "Error processing PDF: ...")] *)
Definition reraise_http_wrap_others {A : Type} (m : handled A) : handled A :=
  match m with
  | (t, Ok a) => (t, Ok a)
  | (t, Raise (HTTPException c d)) => (t, Raise (HTTPException c d))
  | (t, Raise e) =>
      (t, Raise (HTTPException 500
            (lit "Error processing PDF: " ++ str_exn str_HTTPException e)))
  end.

(** [except Exception as e: raise HTTPException(500, "Error: ...")];
    [HTTPException] is itself a subclass of [Exception]. *)
Definition wrap_all {A : Type} (m : handled A) : handled A :=
  match m with
  | (t, Ok a) => (t, Ok a)
  | (t, Raise e) =>
      (t, Raise (HTTPException 500
            (lit "Error: " ++ str_exn str_HTTPException e)))
  end.

Definition upload_summary (file : option UploadFile) (language : str)
  : handled SummaryResponse :=
  reraise_http_wrap_others
    (_ <~ pure (validate_pdf_upload file) ;;
     f <~ pure (the_file file) ;;
     let file_content := content f in
     _ <~ pure (check_file_size file_content) ;;
     extracted_text <~ do_extract file_content ;;
     summary <~ do_summary extracted_text language ;;
     let response :=
       mk_summary_response true (filename f) summary language
         (len extracted_text) (text_preview_of extracted_text) in
     pure (json_response (summary_strings response) response)).

Definition upload_questions (file : option UploadFile) (num_questions : Z)
    (language : str) : handled QuestionsResponse :=
  reraise_http_wrap_others
    (_ <~ pure (validate_pdf_upload file) ;;
     _ <~ pure (check_num_questions num_questions) ;;
     f <~ pure (the_file file) ;;
     let file_content := content f in
     _ <~ pure (check_file_size file_content) ;;
     extracted_text <~ do_extract file_content ;;
     questions <~ do_questions extracted_text num_questions language ;;
     let response :=
       mk_questions_response true (filename f) questions
         num_questions language (len extracted_text)
         (text_preview_of extracted_text) in
     pure (json_response (questions_strings response) response)).

Definition test_extract (file : option UploadFile)
  : handled ExtractResponse :=
  wrap_all
    (_ <~ pure (validate_pdf_upload file) ;;
     f <~ pure (the_file file) ;;
     let file_content := content f in
     _ <~ pure (check_file_size file_content) ;;
     extracted_text <~ do_extract file_content ;;
     let response :=
       mk_extract_response true (filename f)
         (len extracted_text)
         (Z.of_nat (List.length (split_ws extracted_text)))
         (slice_to 500 extracted_text)
         (if (500 <? len extracted_text)%Z
          then slice_from (-500) extracted_text
          else extracted_text)
         (len extracted_text) in
     pure (json_response (extract_strings response) response)).

End Handlers.

(* ----------------------------------------------------------------- *)
(** *** Notions of the specification *)

(** What a decoder yields as a whole: the text of every page when the
    document opens and no page raises, otherwise the first exception. *)
Fixpoint all_pages {A : Type} (doc : list (result A)) : result (list A) :=
  match doc with
  | [] => Ok []
  | page :: rest =>
      x <- page ;;
      xs <- all_pages rest ;;
      Ok (x :: xs)
  end.

Definition pages_of {A : Type} (opened : result (list (result A)))
  : result (list A) :=
  doc <- opened ;; all_pages doc.

(** Text of a pdfplumber page, [None] read as no text. *)
Definition text_of (o : option str) : str :=
  match o with
  | Some t => t
  | None => []
  end.

(** Per-page output with a terminating newline after every page, pages
    without text included. *)
Definition join_every_page (pages : list str) : str :=
  List.concat (map (fun p => p ++ [NL]) pages).

(** Per-page output with a terminating newline after every page that has
    text; a page without text contributes nothing. *)
Definition join_pages (pages : list str) : str :=
  List.concat (map (fun p => p ++ [NL]) (filter truthy pages)).

(** The quality gate on a trimmed text. *)
Definition usable (trimmed : str) : bool :=
  truthy trimmed && negb (startswith trimmed CID_PREFIX).

(** The fallback policy as the specification words it: what the second
    strategy alone leads to, given what its decoder yields. *)
Definition fallback_outcome (str_HTTPException : Z -> str -> str)
    (secondary : result (list (option str))) : result str :=
  match secondary with
  | Ok pages =>
      let text := strip (join_pages (map text_of pages)) in
      if truthy text then Ok text
      else Raise (Exception (EXTRACT_ERROR_PREFIX ++ NO_TEXT_MSG))
  | Raise e =>
      Raise (Exception (EXTRACT_ERROR_PREFIX ++ str_exn str_HTTPException e))
  end.

(** Strategy A, its quality predicate, then strategy B; between the two,
    the error of strategy A is logged, which can fail. *)
Definition extraction_outcome (str_HTTPException : Z -> str -> str)
    (stdout_rejects : str -> option str)
    (primary : result (list str))
    (secondary : result (list (option str))) : result str :=
  match primary with
  | Ok pages =>
      let text := strip (join_pages pages) in
      if usable text then Ok text
      else fallback_outcome str_HTTPException secondary
  | Raise e =>
      match stdout_rejects (primary_failed_line str_HTTPException e) with
      | None => fallback_outcome str_HTTPException secondary
      | Some msg => Raise (LibraryError msg)
      end
  end.

(** [p in s] : [p] occurs in [s] as a substring. *)
Fixpoint contains (s p : str) : bool :=
  startswith s p ||
  match s with
  | [] => false
  | _ :: r => contains r p
  end.

(** A blank line holds white space only. *)
Definition blank (line : str) : bool := forallb isspace line.

(** The lines of a collaborator response that are not blank, each one
    stripped, in their order. *)
Definition non_blank_lines (response : str) : list str :=
  map strip (filter (fun line => negb (blank line)) (split NL response)).

(** ASCII lower-casing, enough to speak of the casings of [".pdf"]. *)
Definition ascii_lower (c : char) : char :=
  if ((65 <=? c) && (c <=? 90))%N then (c + 32)%N else c.

(** The four upload constraints and the message each is reported with. *)
Inductive constraint : Type :=
| FileSupplied
| PdfExtension
| SizeLimit
| QuestionCount.

Definition constraint_detail (c : constraint) : str :=
  match c with
  | FileSupplied => lit "No file uploaded"
  | PdfExtension => lit "Only PDF files are allowed"
  | SizeLimit => lit "File size exceeds 70 MB limit"
  | QuestionCount => lit "Number of questions must be between 1 and 50"
  end.

Definition violates (file : option UploadFile) (num_questions : Z)
    (c : constraint) : bool :=
  match c, file with
  | FileSupplied, None => true
  | FileSupplied, Some _ => false
  | PdfExtension, Some f => negb (endswith (filename f) (lit ".pdf"))
  | SizeLimit, Some f => (MAX_FILE_SIZE_BYTES <? len_bytes (content f))%Z
  | QuestionCount, _ => ((num_questions <? 1) || (50 <? num_questions))%Z
  | _, None => false
  end.

(** First constraint of [order] the request violates. *)
Definition first_violation (order : list constraint)
    (file : option UploadFile) (num_questions : Z) : option constraint :=
  find (violates file num_questions) order.

(** The order the specification lists the validations in, and the order
    [upload_questions] runs them in. *)
Definition listed_order : list constraint :=
  [FileSupplied; PdfExtension; SizeLimit; QuestionCount].
Definition questions_order : list constraint :=
  [FileSupplied; PdfExtension; QuestionCount; SizeLimit].

(** The order [upload_summary] and [test_extract] run their validations
    in; neither has a question count. *)
Definition summary_order : list constraint :=
  [FileSupplied; PdfExtension; SizeLimit].

(** The requests the two generation functions build. *)
Definition summary_request (text language : str) : chat_request :=
  mk_chat_request SummaryPrompt language (text_to_send text) 1500.
Definition questions_request (text : str) (n : Z) (language : str)
  : chat_request :=
  mk_chat_request (QuestionsPrompt n) language (text_to_send text) 1000.

Definition SUMMARY_ERROR_PREFIX : str :=
  lit "Error generating summary with OpenAI: ".
Definition QUESTIONS_ERROR_PREFIX : str :=
  lit "Error generating questions with OpenAI: ".
Definition PROCESSING_ERROR_PREFIX : str := lit "Error processing PDF: ".

(* ----------------------------------------------------------------- *)
(** *** Sample collaborators and uploads *)

(** [HTTPException.__str__] as the framework defines it. *)
Definition sample_str_HTTPException (status_code : Z) (detail : str) : str :=
  format_int status_code ++ lit ": " ++ detail.

(** A stdout encoded in UTF-8, and one encoded in ASCII. *)
Definition utf8_stdout (s : str) : option str :=
  if utf8_encodable s then None
  else Some (lit "'utf-8' codec can't encode character: surrogates not allowed").
Definition ascii_stdout (s : str) : option str :=
  if forallb (fun c => (c <? 128)%N) s then None
  else Some (lit "'ascii' codec can't encode character: ordinal not in range(128)").

Definition sample_utf8_error_text (strings : list str) : str :=
  lit "'utf-8' codec can't encode character: surrogates not allowed".

Definition fitz_returning (doc : fitz_doc) : bytes -> result fitz_doc :=
  fun _ => Ok doc.
Definition fitz_raising (msg : str) : bytes -> result fitz_doc :=
  fun _ => Raise (LibraryError msg).
Definition plumber_returning (doc : plumber_doc)
  : bytes -> result plumber_doc :=
  fun _ => Ok doc.
Definition plumber_raising (msg : str) : bytes -> result plumber_doc :=
  fun _ => Raise (LibraryError msg).
Definition chat_answering (answer : str)
  : chat_request -> result (option str) :=
  fun _ => Ok (Some answer).
Definition chat_without_content : chat_request -> result (option str) :=
  fun _ => Ok None.

Definition small_pdf : UploadFile := mk_upload (lit "notes.pdf") [x25; x50; x44; x46].
Definition upper_pdf : UploadFile := mk_upload (lit "NOTES.PDF") [x25; x50; x44; x46].

(** An upload of 70 MiB + 1 bytes. *)
Definition oversized_content : bytes := repeat x00 (N.to_nat 73400321).
Definition oversized_pdf : UploadFile := mk_upload (lit "big.pdf") oversized_content.

Definition chat_raising (msg : str)
  : chat_request -> result (option str) :=
  fun _ => Raise (LibraryError msg).

(** Two texts of 16,001 characters that differ in the last one only. *)
Definition long_text_a : str := repeat 97%N (N.to_nat 16000) ++ lit "x".
Definition long_text_b : str := repeat 97%N (N.to_nat 16000) ++ lit "y".

Definition three_answers : str :=
  lit "1. What is a text layer?

  2. Why two decoders?  
3. When does extraction fail?
".

End Analyzer.

(* ================================================================= *)
(** ** Facts about the string operations *)

Module StrFacts.
Import PyStr.

Lemma truthy_nil_iff (s : str) : truthy s = false <-> s = [].
Proof. destruct s; simpl; split; congruence. Qed.

Lemma truthy_true_iff (s : str) : truthy s = true <-> s <> [].
Proof. destruct s; simpl; split; congruence. Qed.

(** *** [lstrip] and [rstrip] *)

Lemma lstrip_app_single (x : str) (a : char) :
  lstrip (x ++ [a]) =
  match lstrip x with
  | [] => if isspace a then [] else [a]
  | y => y ++ [a]
  end.
Proof.
  induction x as [|c x IH]; simpl.
  - destruct (isspace a); reflexivity.
  - destruct (isspace c); [exact IH | reflexivity].
Qed.

(** [rstrip] unfolds along the list like any structural function. *)
Lemma rstrip_cons (a : char) (t : str) :
  rstrip (a :: t) =
  match rstrip t with
  | [] => if isspace a then [] else [a]
  | _ :: _ => a :: rstrip t
  end.
Proof.
  unfold rstrip. simpl rev. rewrite lstrip_app_single.
  destruct (lstrip (rev t)) as [|c y] eqn:E.
  - simpl. destruct (isspace a); reflexivity.
  - rewrite rev_app_distr. simpl.
    destruct (rev y ++ [c]) eqn:E2; [|reflexivity].
    destruct (rev y); discriminate.
Qed.

Lemma rstrip_nil : rstrip [] = [].
Proof. reflexivity. Qed.

Lemma lstrip_head (s : str) (c : char) (t : str) :
  lstrip s = c :: t -> isspace c = false.
Proof.
  induction s as [|a s IH]; simpl; [discriminate|].
  destruct (isspace a) eqn:E; [exact IH|].
  intros H; injection H as -> _; exact E.
Qed.

Lemma lstrip_fixed (c : char) (t : str) :
  isspace c = false -> lstrip (c :: t) = c :: t.
Proof. intros H; simpl; now rewrite H. Qed.

(** The last character left by [rstrip] is not white space. *)
Lemma rstrip_last (s : str) (c : char) (t : str) :
  rev (rstrip s) = c :: t -> isspace c = false.
Proof.
  unfold rstrip. rewrite rev_involutive. apply lstrip_head.
Qed.

Lemma rstrip_fixed (s : str) (c : char) (t : str) :
  rev s = c :: t -> isspace c = false -> rstrip s = s.
Proof.
  intros H Hc. unfold rstrip.
  rewrite H, lstrip_fixed by exact Hc. rewrite <- H.
  apply rev_involutive.
Qed.

(** [lstrip] removes a prefix only: a last character survives. *)
Lemma lstrip_keeps_last (x : str) (a : char) :
  isspace a = false -> lstrip (x ++ [a]) = lstrip x ++ [a].
Proof.
  intros Ha. rewrite lstrip_app_single, Ha.
  destruct (lstrip x); reflexivity.
Qed.

(** Shape of a stripped string: empty, or delimited by two characters that
    are not white space. *)
Lemma rev_cons_inv (A : Type) (s : list A) (c : A) (t : list A) :
  rev s = c :: t -> s = rev t ++ [c].
Proof.
  intros H. rewrite <- (rev_involutive s), H. reflexivity.
Qed.

Lemma strip_last (s : str) (c : char) (t : str) :
  rev (strip s) = c :: t -> isspace c = false.
Proof.
  unfold strip. intros H.
  destruct (rev (rstrip s)) as [|z r] eqn:E.
  - apply (f_equal (@rev _)) in E. rewrite rev_involutive in E.
    simpl in E. rewrite E in H. discriminate.
  - pose proof (@rstrip_last s z r E) as Hz.
    apply rev_cons_inv in E. rewrite E in H.
    rewrite lstrip_keeps_last in H by exact Hz.
    rewrite rev_app_distr in H.
    simpl in H. injection H as <- _. exact Hz.
Qed.

Lemma strip_head (s : str) (c : char) (t : str) :
  strip s = c :: t -> isspace c = false.
Proof. unfold strip. apply lstrip_head. Qed.

Lemma strip_idempotent (s : str) : strip (strip s) = strip s.
Proof.
  destruct (strip s) as [|c t] eqn:E; [reflexivity|].
  pose proof (@strip_head s c t E) as Hc.
  destruct (rev (c :: t)) as [|z r] eqn:R.
  - apply (f_equal (@List.length _)) in R.
    rewrite length_rev in R. discriminate.
  - assert (Hz : isspace z = false).
    { apply (@strip_last s z r). now rewrite E. }
    unfold strip at 1. rewrite (@rstrip_fixed (c :: t) z r R Hz).
    apply lstrip_fixed, Hc.
Qed.

(** [lstrip] and [rstrip] commute. *)
Lemma lstrip_rstrip_comm (s : str) : lstrip (rstrip s) = rstrip (lstrip s).
Proof.
  induction s as [|a t IH]; [reflexivity|].
  rewrite rstrip_cons. simpl lstrip at 2.
  destruct (isspace a) eqn:Ha.
  - rewrite <- IH. destruct (rstrip t) as [|c r]; [reflexivity|].
    simpl. now rewrite Ha.
  - rewrite rstrip_cons.
    destruct (rstrip t) as [|c r]; simpl; now rewrite Ha.
Qed.

Lemma strip_space_cons (c : char) (l : str) :
  isspace c = true -> strip (c :: l) = strip l.
Proof.
  intros Hc. unfold strip. rewrite !lstrip_rstrip_comm.
  simpl. now rewrite Hc.
Qed.

(** A string strips to nothing exactly when it holds white space only. *)
Lemma truthy_strip (s : str) : truthy (strip s) = negb (forallb isspace s).
Proof.
  induction s as [|a t IH]; [reflexivity|].
  simpl forallb. destruct (isspace a) eqn:Ha.
  - rewrite strip_space_cons by exact Ha. exact IH.
  - unfold strip. rewrite rstrip_cons.
    destruct (rstrip t); rewrite ?Ha; simpl; rewrite Ha; reflexivity.
Qed.

Lemma strip_nil_iff (s : str) : strip s = [] <-> forallb isspace s = true.
Proof.
  rewrite <- truthy_nil_iff, truthy_strip, negb_false_iff. reflexivity.
Qed.

(** *** [startswith] and [endswith] *)

Lemma startswith_iff (s p : str) :
  startswith s p = true <-> exists t, s = p ++ t.
Proof.
  revert s; induction p as [|a p IH]; intros s; simpl.
  - split; [intros _; now exists s | reflexivity].
  - destruct s as [|b s].
    + split; [discriminate | intros [t H]; discriminate].
    + rewrite andb_true_iff, N.eqb_eq, IH. split.
      * intros [-> [t ->]]. now exists t.
      * intros [t H]. injection H as -> ->. split; [reflexivity | now exists t].
Qed.

Lemma endswith_iff (s p : str) :
  endswith s p = true <-> exists stem, s = stem ++ p.
Proof.
  unfold endswith. rewrite startswith_iff. split.
  - intros [t H]. exists (rev t).
    rewrite <- (rev_involutive s), H, rev_app_distr, rev_involutive.
    reflexivity.
  - intros [stem ->]. exists (rev stem). apply rev_app_distr.
Qed.

(** Two suffixes of one string that have the same length are equal. *)
Lemma suffix_unique (s p q : str) :
  endswith s p = true -> endswith s q = true ->
  List.length p = List.length q -> p = q.
Proof.
  rewrite !endswith_iff. intros [a ->] [b H] L.
  assert (La : List.length a = List.length b).
  { apply (f_equal (@List.length _)) in H. rewrite !length_app in H. lia. }
  clear -H La. revert b H La.
  induction a as [|x a IH]; intros [|y b] H La; simpl in *; try discriminate.
  - exact H.
  - injection H as _ H. apply (IH b H). lia.
Qed.

(** *** Slices *)

Lemma slice_to_firstn (n : nat) (s : str) :
  (n <= List.length s)%nat -> slice_to (Z.of_nat n) s = firstn n s.
Proof.
  intros H. unfold slice_to, slice_index, len.
  destruct (Z.of_nat n <? 0)%Z eqn:E; [lia|].
  f_equal. lia.
Qed.

End StrFacts.

(* ================================================================= *)
(** ** Facts about splitting a response into lines *)

Module LineFacts.
Import PyStr StrFacts.

(** The comprehension [[q.strip() for q in lines if q.strip()]]. *)
Local Abbreviation kept ls :=
  (map strip (filter (fun q => truthy (strip q)) ls)).

Lemma split_cons (sep a : char) (t : str) :
  split sep (a :: t) =
  if (a =? sep)%N then [] :: split sep t
  else match split sep t with
       | [] => [[a]]
       | l :: ls => (a :: l) :: ls
       end.
Proof. reflexivity. Qed.

Lemma split_not_nil (sep : char) (s : str) :
  exists l ls, split sep s = l :: ls.
Proof.
  destruct s as [|a t]; [now exists [], []|].
  rewrite split_cons. destruct (a =? sep)%N; [eauto|].
  destruct (split sep t); eauto.
Qed.

Lemma kept_cons (l : str) (ls : list str) :
  kept (l :: ls) =
  if truthy (strip l) then strip l :: kept ls else kept ls.
Proof. simpl. destruct (truthy (strip l)); reflexivity. Qed.

Lemma kept_same_head (l l' : str) (ls ls' : list str) :
  strip l' = strip l -> kept ls' = kept ls -> kept (l' :: ls') = kept (l :: ls).
Proof. intros H1 H2. rewrite !kept_cons, H1, H2. reflexivity. Qed.

(** A leading white-space character never changes the kept lines. *)
Lemma kept_space_cons (c : char) (s : str) :
  isspace c = true -> kept (split NL (c :: s)) = kept (split NL s).
Proof.
  intros Hc. rewrite split_cons.
  destruct (c =? NL)%N; [reflexivity|].
  destruct (split_not_nil NL s) as (l & ls & ->).
  apply kept_same_head; [now apply strip_space_cons | reflexivity].
Qed.

Lemma kept_lstrip (s : str) :
  kept (split NL (lstrip s)) = kept (split NL s).
Proof.
  induction s as [|c s IH]; [reflexivity|].
  simpl lstrip. destruct (isspace c) eqn:Hc; [|reflexivity].
  now rewrite IH, kept_space_cons.
Qed.

Lemma strip_of_rstrip_eq (l l' : str) :
  rstrip l' = rstrip l -> strip l' = strip l.
Proof. unfold strip. now intros ->. Qed.

(** Removing trailing white space touches the last kept line only by
    right-stripping it, and drops blank lines after it. *)
Lemma split_rstrip (t : str) :
  forall l ls l' ls',
    split NL t = l :: ls ->
    split NL (rstrip t) = l' :: ls' ->
    rstrip l' = rstrip l /\ kept ls' = kept ls.
Proof.
  induction t as [|a t IH]; intros l ls l' ls' Hs Hr.
  - simpl in Hs, Hr. injection Hs as <- <-. injection Hr as <- <-. now split.
  - rewrite rstrip_cons in Hr. rewrite split_cons in Hs.
    destruct (split_not_nil NL t) as (l0 & ls0 & E0).
    destruct (split_not_nil NL (rstrip t)) as (l1 & ls1 & E1).
    destruct (IH _ _ _ _ E0 E1) as [Hl Hk].
    rewrite E0 in Hs.
    destruct (rstrip t) as [|c r] eqn:Et.
    + (* everything after [a] is white space *)
      simpl in E1. injection E1 as <- <-.
      assert (Hl0 : rstrip l0 = []) by (now rewrite <- Hl).
      assert (Hs0 : strip l0 = []) by (unfold strip; now rewrite Hl0).
      destruct (a =? NL)%N eqn:Ea.
      * apply N.eqb_eq in Ea. subst a. change (isspace NL) with true in Hr.
        simpl in Hr. injection Hr as <- <-. injection Hs as <- <-.
        split; [reflexivity|].
        rewrite kept_cons, Hs0. simpl. now rewrite <- Hk.
      * injection Hs as <- <-.
        destruct (isspace a) eqn:Ha.
        -- simpl in Hr. injection Hr as <- <-. split; [|exact Hk].
           rewrite rstrip_cons, Hl0, Ha. reflexivity.
        -- rewrite split_cons, Ea in Hr. simpl in Hr. injection Hr as <- <-.
           split; [|exact Hk].
           rewrite !rstrip_cons, Hl0, rstrip_nil, Ha. reflexivity.
    + rewrite split_cons in Hr. rewrite E1 in Hr.
      destruct (a =? NL)%N.
      * injection Hr as <- <-. injection Hs as <- <-.
        split; [reflexivity|].
        apply kept_same_head; [now apply strip_of_rstrip_eq | exact Hk].
      * injection Hr as <- <-. injection Hs as <- <-.
        split; [|exact Hk].
        rewrite !rstrip_cons, Hl. reflexivity.
Qed.

Lemma kept_rstrip (s : str) :
  kept (split NL (rstrip s)) = kept (split NL s).
Proof.
  destruct (split_not_nil NL s) as (l & ls & E).
  destruct (split_not_nil NL (rstrip s)) as (l' & ls' & E').
  destruct (split_rstrip _ E E') as [Hl Hk].
  rewrite E, E'.
  apply kept_same_head; [now apply strip_of_rstrip_eq | exact Hk].
Qed.

(** Stripping the whole response first does not change the kept lines. *)
Lemma kept_strip (s : str) :
  kept (split NL (strip s)) = kept (split NL s).
Proof. unfold strip. now rewrite kept_lstrip, kept_rstrip. Qed.

(** Filtering before or after stripping each line is the same. *)
Lemma kept_filter_map (ls : list str) :
  kept ls = filter truthy (map strip ls).
Proof.
  induction ls as [|l ls IH]; [reflexivity|].
  rewrite kept_cons. simpl. rewrite IH.
  destruct (truthy (strip l)); reflexivity.
Qed.

Lemma filter_truthy_kept (ls : list str) :
  filter truthy (kept ls) = kept ls.
Proof.
  rewrite kept_filter_map.
  induction (map strip ls) as [|x xs IH]; simpl; [reflexivity|].
  destruct (truthy x) eqn:E; simpl; [rewrite E|]; now rewrite ?IH.
Qed.

Lemma kept_non_blank (ls : list str) :
  kept ls =
  map strip (filter (fun line => negb (forallb isspace line)) ls).
Proof.
  f_equal. apply filter_ext. intros l. apply truthy_strip.
Qed.

End LineFacts.

(* ================================================================= *)
(** ** The extraction engine *)

Module ExtractionFacts.
Import PyStr Py Analyzer StrFacts.
Local Open Scope py_scope.

Section WithDecoders.

Variable str_HTTPException : Z -> str -> str.
Variable stdout_rejects : str -> option str.
Variable fitz_open : bytes -> result fitz_doc.
Variable pdfplumber_open : bytes -> result plumber_doc.

Local Abbreviation extract :=
  (extract_text_from_pdf str_HTTPException stdout_rejects fitz_open
     pdfplumber_open).
Local Abbreviation failed_line :=
  (primary_failed_line str_HTTPException).

Lemma join_pages_cons (p : str) (ps : list str) :
  join_pages (p :: ps) =
  if truthy p then (p ++ [NL]) ++ join_pages ps else join_pages ps.
Proof. unfold join_pages. simpl. destruct (truthy p); reflexivity. Qed.

(** The primary loop appends, to the accumulator it starts from, the
    joined text of the pages; it raises what the first failing page
    raises. *)
Lemma fitz_loop_pages (doc : fitz_doc) :
  forall text,
    fitz_loop doc text =
    (pages <- all_pages doc ;; Ok (text ++ join_pages pages)).
Proof.
  induction doc as [|page rest IH]; intros text; simpl.
  - unfold join_pages. simpl. now rewrite app_nil_r.
  - destruct page as [page_text|e]; simpl; [|reflexivity].
    rewrite IH. destruct (all_pages rest) as [ps|e]; simpl; [|reflexivity].
    rewrite join_pages_cons.
    destruct (truthy page_text); [now rewrite <- app_assoc | reflexivity].
Qed.

Lemma plumber_loop_pages (doc : plumber_doc) :
  forall text,
    plumber_loop doc text =
    (pages <- all_pages doc ;;
     Ok (text ++ join_pages (map text_of pages))).
Proof.
  induction doc as [|page rest IH]; intros text; simpl.
  - unfold join_pages. simpl. now rewrite app_nil_r.
  - destruct page as [page_text|e]; simpl; [|reflexivity].
    rewrite IH. destruct (all_pages rest) as [ps|e]; simpl; [|reflexivity].
    rewrite join_pages_cons.
    destruct page_text as [t|]; simpl; [|reflexivity].
    destruct (truthy t); [now rewrite <- app_assoc | reflexivity].
Qed.

Lemma fallback_refines (file_content : bytes) :
  fallback_try str_HTTPException pdfplumber_open file_content =
  fallback_outcome str_HTTPException
    (pages_of (pdfplumber_open file_content)).
Proof.
  unfold fallback_try, fallback_attempt, fallback_outcome, pages_of.
  destruct (pdfplumber_open file_content) as [doc|e]; cbn [bind app try_except]; [|reflexivity].
  rewrite plumber_loop_pages.
  destruct (all_pages doc) as [ps|e]; cbn [bind app try_except]; [|reflexivity].
  destruct (truthy (strip (join_pages (map text_of ps)))); reflexivity.
Qed.

Lemma print_cases (s : str) :
  print stdout_rejects s =
  match stdout_rejects s with
  | None => Ok tt
  | Some msg => Raise (LibraryError msg)
  end.
Proof. reflexivity. Qed.

(** The two [try] blocks in sequence are the ordered two-strategy
    policy. *)
Lemma extract_refines (file_content : bytes) :
  extract file_content =
  extraction_outcome str_HTTPException stdout_rejects
    (pages_of (fitz_open file_content))
    (pages_of (pdfplumber_open file_content)).
Proof.
  unfold extract_text_from_pdf, extraction_outcome.
  rewrite fallback_refines.
  assert (P : forall e,
             (_ <- print stdout_rejects (failed_line e) ;;
              fallback_outcome str_HTTPException
                (pages_of (pdfplumber_open file_content))) =
             match stdout_rejects (failed_line e) with
             | None => fallback_outcome str_HTTPException
                         (pages_of (pdfplumber_open file_content))
             | Some msg => Raise (LibraryError msg)
             end).
  { intros e. rewrite print_cases.
    destruct (stdout_rejects (failed_line e)); reflexivity. }
  unfold primary_attempt, pages_of.
  destruct (fitz_open file_content) as [doc|e]; cbn [bind app try_except];
    [|apply P].
  rewrite fitz_loop_pages.
  destruct (all_pages doc) as [ps|e]; cbn [bind app try_except]; [|apply P].
  unfold usable.
  destruct (truthy (strip (join_pages ps)) &&
            negb (startswith (strip (join_pages ps)) CID_PREFIX));
    reflexivity.
Qed.

Lemma join_every_page_blank (pages : list str) :
  forallb isspace (join_every_page pages) = forallb (forallb isspace) pages.
Proof.
  unfold join_every_page.
  induction pages as [|p ps IH]; [reflexivity|].
  simpl. rewrite !forallb_app, IH. simpl.
  change (isspace NL) with true. now rewrite !andb_true_r.
Qed.

Lemma join_pages_blank (pages : list str) :
  forallb isspace (join_pages pages) = forallb (forallb isspace) pages.
Proof.
  induction pages as [|p ps IH]; [reflexivity|].
  rewrite join_pages_cons. simpl forallb at 2.
  destruct p as [|c p]; [exact IH|].
  cbn [truthy]. rewrite !forallb_app, IH. simpl.
  change (isspace NL) with true. now rewrite !andb_true_r.
Qed.

(** A newline after pages without text does not change whether the
    trimmed output is empty. *)
Lemma trim_empty_any_join (pages : list str) :
  strip (join_every_page pages) = [] <-> strip (join_pages pages) = [].
Proof.
  now rewrite !strip_nil_iff, join_every_page_blank, join_pages_blank.
Qed.

Lemma usable_false_iff (t : str) :
  usable t = false <-> t = [] \/ startswith t CID_PREFIX = true.
Proof.
  unfold usable. rewrite andb_false_iff, negb_false_iff, truthy_nil_iff.
  reflexivity.
Qed.

Lemma usable_true_iff (t : str) :
  usable t = true <-> t <> [] /\ startswith t CID_PREFIX = false.
Proof.
  unfold usable. rewrite andb_true_iff, negb_true_iff, truthy_true_iff.
  reflexivity.
Qed.

(** When the primary attempt raises and its error is logged, or when it
    fails the quality gate, the result is the one of the fallback
    alone. *)
Lemma extract_falls_back (file_content : bytes) :
  (exists e,
      pages_of (fitz_open file_content) = Raise e /\
      stdout_rejects (failed_line e) = None) \/
  (exists pages,
      pages_of (fitz_open file_content) = Ok pages /\
      (strip (join_pages pages) = [] \/
       startswith (strip (join_pages pages)) CID_PREFIX = true)) ->
  extract file_content =
  fallback_outcome str_HTTPException
    (pages_of (pdfplumber_open file_content)).
Proof.
  intros H. rewrite extract_refines. unfold extraction_outcome.
  destruct H as [(e & -> & P) | (pages & -> & H)]; [now rewrite P|].
  apply usable_false_iff in H. cbv zeta. now rewrite H.
Qed.

Lemma fallback_ok_inv (secondary : result (list (option str))) (s : str) :
  fallback_outcome str_HTTPException secondary = Ok s ->
  exists t, s = strip t /\ s <> [].
Proof.
  unfold fallback_outcome. destruct secondary as [ps|e]; [|discriminate].
  cbv zeta. destruct (truthy _) eqn:E; [|discriminate].
  intros H. injection H as <-. eexists. split; [reflexivity|].
  now apply truthy_true_iff.
Qed.

(** Whatever is returned is a non-empty result of [strip]. *)
Lemma extract_ok_inv (file_content : bytes) (s : str) :
  extract file_content = Ok s -> exists t, s = strip t /\ s <> [].
Proof.
  rewrite extract_refines. unfold extraction_outcome.
  destruct (pages_of (fitz_open file_content)) as [ps|e];
    [|destruct (stdout_rejects _); [discriminate | apply fallback_ok_inv]].
  cbv zeta. destruct (usable _) eqn:E; [|apply fallback_ok_inv].
  intros H. injection H as <-. eexists. split; [reflexivity|].
  now apply usable_true_iff in E.
Qed.

(** C1 (amended). When the primary decoder succeeds and its trimmed output
    is non-empty and does not begin with ["(cid:"], the function returns
    exactly that trimmed output, where each page that has text is followed
    by a newline and a page without text contributes nothing. *)
Theorem primary_text_is_returned (file_content : bytes) (pages : list str) :
  pages_of (fitz_open file_content) = Ok pages ->
  strip (join_pages pages) <> [] ->
  startswith (strip (join_pages pages)) CID_PREFIX = false ->
  extract file_content = Ok (strip (join_pages pages)).
Proof.
  intros Hp Hne Hcid. rewrite extract_refines, Hp.
  unfold extraction_outcome. cbv zeta.
  assert (U : usable (strip (join_pages pages)) = true)
    by (apply usable_true_iff; now split).
  now rewrite U.
Qed.

(** C2 (amended). When the primary decoder raises and the line logging
    its error is printed, or when its trimmed output is empty or begins
    with ["(cid:"], the outcome is decided by the secondary decoder alone,
    from a fresh accumulator: its trimmed joined output is returned when
    it is non-empty, and the function raises when that output is empty or
    the secondary decoder raises. *)
Theorem fallback_text_is_returned (file_content : bytes) :
  (exists e,
      pages_of (fitz_open file_content) = Raise e /\
      stdout_rejects (failed_line e) = None) \/
  (exists pages,
      pages_of (fitz_open file_content) = Ok pages /\
      (strip (join_pages pages) = [] \/
       startswith (strip (join_pages pages)) CID_PREFIX = true)) ->
  (forall pages2,
      pages_of (pdfplumber_open file_content) = Ok pages2 ->
      strip (join_pages (map text_of pages2)) <> [] ->
      extract file_content = Ok (strip (join_pages (map text_of pages2)))) /\
  (forall pages2,
      pages_of (pdfplumber_open file_content) = Ok pages2 ->
      strip (join_pages (map text_of pages2)) = [] ->
      is_ok (extract file_content) = false) /\
  (forall e2,
      pages_of (pdfplumber_open file_content) = Raise e2 ->
      is_ok (extract file_content) = false).
Proof.
  intros H. rewrite (extract_falls_back _ H). unfold fallback_outcome.
  repeat split.
  - intros ps -> Hne. cbv zeta.
    apply truthy_true_iff in Hne. now rewrite Hne.
  - intros ps -> He. cbv zeta. now rewrite He.
  - now intros e2 ->.
Qed.

(** C3. When both decoders yield empty trimmed text the function raises;
    and every string it returns is non-empty and trimmed: [strip] leaves
    it unchanged, and neither its first nor its last character is white
    space. *)
Theorem extracted_text_is_trimmed_nonempty (file_content : bytes) :
  (forall pages1 pages2,
      pages_of (fitz_open file_content) = Ok pages1 ->
      strip (join_pages pages1) = [] ->
      pages_of (pdfplumber_open file_content) = Ok pages2 ->
      strip (join_pages (map text_of pages2)) = [] ->
      exists e, extract file_content = Raise e) /\
  (forall s,
      extract file_content = Ok s ->
      s <> [] /\ strip s = s /\
      (forall c t, s = c :: t -> isspace c = false) /\
      (forall c t, rev s = c :: t -> isspace c = false)).
Proof.
  split.
  - intros p1 p2 H1 E1 H2 E2.
    rewrite extract_falls_back by (right; exists p1; auto).
    rewrite H2. unfold fallback_outcome. cbv zeta. rewrite E2.
    eexists. reflexivity.
  - intros s H. destruct (extract_ok_inv _ H) as (t & -> & Hne).
    split; [exact Hne|]. split; [apply strip_idempotent|]. split.
    + intros c r. apply strip_head.
    + intros c r. apply strip_last.
Qed.

(** C4 (amended). When both strategies fail, the primary one by an empty
    or ["(cid:"]-prefixed text or by an exception whose log line is
    printed, one [Exception] is raised.  Its message is the fixed prefix
    followed by the reason of the fallback alone: the no-text message when
    the secondary decoder yields empty trimmed text, the text of the
    secondary decoder's exception when it raises.  The two messages differ
    as soon as that exception text is not the no-text message itself.  The
    reason the primary attempt failed is not part of the message. *)
Theorem failure_reports_fallback_reason (file_content : bytes) :
  (exists e,
      pages_of (fitz_open file_content) = Raise e /\
      stdout_rejects (failed_line e) = None) \/
  (exists pages,
      pages_of (fitz_open file_content) = Ok pages /\
      (strip (join_pages pages) = [] \/
       startswith (strip (join_pages pages)) CID_PREFIX = true)) ->
  (forall pages2,
      pages_of (pdfplumber_open file_content) = Ok pages2 ->
      strip (join_pages (map text_of pages2)) = [] ->
      extract file_content =
      Raise (Exception (EXTRACT_ERROR_PREFIX ++ NO_TEXT_MSG))) /\
  (forall e2,
      pages_of (pdfplumber_open file_content) = Raise e2 ->
      extract file_content =
      Raise (Exception
               (EXTRACT_ERROR_PREFIX ++ str_exn str_HTTPException e2)) /\
      (str_exn str_HTTPException e2 <> NO_TEXT_MSG ->
       EXTRACT_ERROR_PREFIX ++ str_exn str_HTTPException e2 <>
       EXTRACT_ERROR_PREFIX ++ NO_TEXT_MSG)).
Proof.
  intros H. rewrite (extract_falls_back _ H). unfold fallback_outcome.
  split.
  - intros ps -> He. cbv zeta. now rewrite He.
  - intros e2 ->. split; [reflexivity|].
    intros Hne Heq. apply Hne. exact (app_inv_head _ _ _ Heq).
Qed.

End WithDecoders.

(** *** Concrete runs *)

Local Abbreviation run_extract :=
  (extract_text_from_pdf sample_str_HTTPException utf8_stdout).

(** C1 as stated fails: with a page without text between two pages that
    have text, the function returns ["a\nb"], not the text joined with a
    newline after every page, ["a\n\nb"]. *)
Lemma blank_page_adds_no_newline :
  let pages := [lit "a"; []; lit "b"] in
  let fitz := fitz_returning (map Ok pages) in
  pages_of (fitz []) = Ok pages /\
  strip (join_every_page pages) <> [] /\
  startswith (strip (join_every_page pages)) CID_PREFIX = false /\
  run_extract fitz (plumber_returning []) [] = Ok (lit "a" ++ [NL] ++ lit "b") /\
  run_extract fitz (plumber_returning []) [] <>
  Ok (strip (join_every_page pages)).
Proof.
  cbv zeta. repeat split; try reflexivity; vm_compute; discriminate.
Qed.

Lemma primary_text_is_returned_witness :
  run_extract (fitz_returning [Ok (lit "a"); Ok []; Ok (lit "b")])
    (plumber_returning []) [] =
  Ok (strip (join_pages [lit "a"; []; lit "b"])).
Proof.
  apply (@primary_text_is_returned sample_str_HTTPException utf8_stdout
           (fitz_returning [Ok (lit "a"); Ok []; Ok (lit "b")])
           (plumber_returning []) [] [lit "a"; []; lit "b"]).
  - reflexivity.
  - vm_compute; discriminate.
  - reflexivity.
Defined.

(** C2 as stated fails: when the primary text is empty and the secondary
    decoder also yields empty text, nothing is returned. *)
Lemma fallback_may_not_return :
  let fitz := fitz_returning [] in
  let plumber := plumber_returning [Ok None] in
  pages_of (fitz []) = Ok [] /\
  strip (join_pages []) = [] /\
  pages_of (plumber []) = Ok [None] /\
  run_extract fitz plumber [] <>
  Ok (strip (join_pages (map text_of [None]))) /\
  is_ok (run_extract fitz plumber []) = false.
Proof.
  cbv zeta. repeat split; try reflexivity. vm_compute; discriminate.
Qed.

Lemma fallback_text_is_returned_witness :
  run_extract (fitz_returning [Ok (lit "(cid:12)(cid:7)")])
    (plumber_returning [Ok (Some (lit " Hello ")); Ok None]) [] =
  Ok (strip (join_pages (map text_of [Some (lit " Hello "); None]))).
Proof.
  apply (proj1 (@fallback_text_is_returned sample_str_HTTPException
           utf8_stdout (fitz_returning [Ok (lit "(cid:12)(cid:7)")])
           (plumber_returning [Ok (Some (lit " Hello ")); Ok None]) []
           (or_intror (ex_intro _ [lit "(cid:12)(cid:7)"]
              (conj eq_refl (or_intror eq_refl)))))).
  - reflexivity.
  - vm_compute; discriminate.
Defined.

Lemma extracted_text_is_trimmed_nonempty_witness :
  (exists e,
      run_extract (fitz_returning [Ok (lit "  ")])
        (plumber_returning [Ok None]) [] = Raise e) /\
  strip (lit "Hello") = lit "Hello".
Proof.
  split.
  - apply (proj1 (@extracted_text_is_trimmed_nonempty
             sample_str_HTTPException utf8_stdout
             (fitz_returning [Ok (lit "  ")])
             (plumber_returning [Ok None]) []) [lit "  "] [None]);
      reflexivity.
  - apply (proj2 (@extracted_text_is_trimmed_nonempty
             sample_str_HTTPException utf8_stdout
             (fitz_returning [Ok (lit " Hello ")])
             (plumber_returning []) []) (lit "Hello")).
    reflexivity.
Defined.

(** C4 as stated fails: the reason of the primary failure is absent from
    the message, which only carries the reason of the fallback. *)
Lemma primary_reason_is_dropped :
  let fitz := fitz_raising (lit "cannot open broken document") in
  let plumber := plumber_raising (lit "No /Root object") in
  run_extract fitz plumber [] =
  Raise (Exception (lit "Error extracting text from PDF: No /Root object")) /\
  contains (lit "Error extracting text from PDF: No /Root object")
    (lit "cannot open broken document") = false /\
  run_extract (fitz_raising (lit "file is encrypted")) plumber [] =
  run_extract fitz plumber [].
Proof. cbv zeta. repeat split; reflexivity. Qed.

Lemma failure_reports_fallback_reason_witness :
  run_extract (fitz_raising (lit "cannot open broken document"))
    (plumber_returning [Ok (Some [])]) [] =
  Raise (Exception (EXTRACT_ERROR_PREFIX ++ NO_TEXT_MSG)).
Proof.
  apply (proj1 (@failure_reports_fallback_reason sample_str_HTTPException
           utf8_stdout (fitz_raising (lit "cannot open broken document"))
           (plumber_returning [Ok (Some [])]) []
           (or_introl (ex_intro _ _ (conj eq_refl eq_refl)))) [Some []]);
    reflexivity.
Defined.

End ExtractionFacts.

(* ================================================================= *)
(** ** Generation and the request handlers *)

Module HandlerFacts.
Import PyStr Py Analyzer StrFacts LineFacts ExtractionFacts.
Local Open Scope py_scope.

(** *** Upload validation *)

Lemma validate_ok_iff (file : option UploadFile) :
  validate_pdf_upload file = Ok tt <->
  exists f, file = Some f /\ endswith (filename f) (lit ".pdf") = true.
Proof.
  unfold validate_pdf_upload. destruct file as [f|].
  - destruct (endswith (filename f) (lit ".pdf")) eqn:E; simpl; split.
    + intros _. now exists f.
    + reflexivity.
    + discriminate.
    + intros (g & H & Hg). injection H as <-. congruence.
  - split; [discriminate | intros (f & H & _); discriminate].
Qed.

(** C9. The extension check is case-sensitive: an upload is accepted
    exactly when a file is present and its name is some stem followed by
    the lowercase [".pdf"]; a name ending in any other casing of [".pdf"]
    is rejected with status 400. *)
Theorem pdf_extension_is_case_sensitive :
  (forall file,
      validate_pdf_upload file = Ok tt <->
      exists f stem, file = Some f /\ filename f = stem ++ lit ".pdf") /\
  (forall f suffix,
      endswith (filename f) suffix = true ->
      map ascii_lower suffix = lit ".pdf" ->
      suffix <> lit ".pdf" ->
      validate_pdf_upload (Some f) =
      Raise (HTTPException 400 (lit "Only PDF files are allowed"))).
Proof.
  split.
  - intros file. rewrite validate_ok_iff. split.
    + intros (f & -> & H). apply endswith_iff in H. destruct H as [stem H].
      now exists f, stem.
    + intros (f & stem & -> & H). exists f. split; [reflexivity|].
      apply endswith_iff. now exists stem.
  - intros f suffix Hs Hl Hne. unfold validate_pdf_upload.
    destruct (endswith (filename f) (lit ".pdf")) eqn:E; [|reflexivity].
    exfalso. apply Hne. apply (@suffix_unique (filename f) _ _ Hs E).
    apply (f_equal (@List.length _)) in Hl. now rewrite length_map in Hl.
Qed.

Lemma pdf_extension_is_case_sensitive_witness :
  validate_pdf_upload (Some upper_pdf) =
  Raise (HTTPException 400 (lit "Only PDF files are allowed")).
Proof.
  apply (proj2 pdf_extension_is_case_sensitive upper_pdf (lit ".PDF")).
  - reflexivity.
  - reflexivity.
  - vm_compute; discriminate.
Defined.

(** *** The size of the oversized upload, without building it *)

Lemma oversized_len : len_bytes oversized_content = 73400321%Z.
Proof.
  unfold len_bytes, oversized_content.
  rewrite repeat_length. apply N_nat_Z.
Qed.

Lemma oversized_exceeds :
  (MAX_FILE_SIZE_BYTES <? len_bytes (content oversized_pdf))%Z = true.
Proof.
  change (content oversized_pdf) with oversized_content.
  rewrite oversized_len. reflexivity.
Qed.

Lemma check_file_size_ok_iff (file_content : bytes) :
  check_file_size file_content = Ok tt <->
  (len_bytes file_content <= MAX_FILE_SIZE_BYTES)%Z.
Proof.
  unfold check_file_size.
  destruct (Z.ltb_spec MAX_FILE_SIZE_BYTES (len_bytes file_content));
    split; try discriminate; try reflexivity; lia.
Qed.

Lemma size_detail :
  lit "File size exceeds " ++ format_int MAX_FILE_SIZE_MB ++ lit " MB limit"
  = constraint_detail SizeLimit.
Proof. reflexivity. Qed.

(** *** Preview *)

Lemma text_preview_long (text : str) :
  (200 < len text)%Z ->
  text_preview_of text = firstn 200 text ++ lit "...".
Proof.
  intros H. unfold text_preview_of.
  apply Z.ltb_lt in H. rewrite H. f_equal.
  apply Z.ltb_lt in H. unfold len in H.
  apply (@slice_to_firstn 200%nat). lia.
Qed.

Lemma text_preview_short (text : str) :
  (len text <= 200)%Z -> text_preview_of text = text.
Proof.
  intros H. unfold text_preview_of.
  apply Z.ltb_ge in H. now rewrite H.
Qed.

(** *** The handlers over arbitrary collaborators *)

Section WithCollaborators.

Variable str_HTTPException : Z -> str -> str.
Variable stdout_rejects : str -> option str.
Variable utf8_error_text : list str -> str.
Variable fitz_open : bytes -> result fitz_doc.
Variable pdfplumber_open : bytes -> result plumber_doc.
Variable chat_create : chat_request -> result (option str).

Local Abbreviation extract :=
  (extract_text_from_pdf str_HTTPException stdout_rejects fitz_open
     pdfplumber_open).
Local Abbreviation summary_handler :=
  (upload_summary str_HTTPException stdout_rejects utf8_error_text
     fitz_open pdfplumber_open chat_create).
Local Abbreviation questions_handler :=
  (upload_questions str_HTTPException stdout_rejects utf8_error_text
     fitz_open pdfplumber_open chat_create).
Local Abbreviation extract_handler :=
  (test_extract str_HTTPException stdout_rejects utf8_error_text
     fitz_open pdfplumber_open).
Local Abbreviation questions_of :=
  (generate_questions str_HTTPException chat_create).

Ltac unfold_handler :=
  unfold upload_summary, upload_questions, test_extract,
    reraise_http_wrap_others, wrap_all, do_extract, do_summary,
    do_questions, calling, pure, hbind, the_file, json_response.

(** C8. The question list is the response split on newlines, with blank
    lines removed and every other line stripped, in the original order. *)
Theorem question_list_is_non_blank_lines
    (text : str) (n : Z) (language response : str) :
  chat_create
    (mk_chat_request (QuestionsPrompt n) language (text_to_send text) 1000)
  = Ok (Some response) ->
  questions_of text n language = Ok (non_blank_lines response).
Proof.
  intros H. unfold generate_questions. rewrite H.
  cbn [bind try_except strip_content]. f_equal.
  rewrite filter_truthy_kept, kept_strip. apply kept_non_blank.
Qed.

(** Rejections of [upload_questions], in the order it checks. *)
Lemma questions_rejects (file : option UploadFile) (n : Z) (language : str)
    (c : constraint) :
  first_violation questions_order file n = Some c ->
  questions_handler file n language =
  ([], Raise (HTTPException 400 (constraint_detail c))).
Proof.
  unfold first_violation, questions_order. intros H.
  unfold_handler. unfold validate_pdf_upload.
  destruct file as [f|]; cbn [find violates] in H.
  - destruct (endswith (filename f) (lit ".pdf")); cbn [negb] in *.
    + unfold check_num_questions.
      destruct ((n <? 1)%Z || (50 <? n)%Z).
      * injection H as <-. reflexivity.
      * unfold check_file_size.
        destruct (MAX_FILE_SIZE_BYTES <? len_bytes (content f))%Z;
          [|destruct ((n <? 1)%Z || (50 <? n)%Z); discriminate].
        injection H as <-. rewrite size_detail. reflexivity.
    + injection H as <-. reflexivity.
  - injection H as <-. reflexivity.
Qed.

Lemma questions_passes (file : option UploadFile) (n : Z) (language : str) :
  first_violation questions_order file n = None ->
  exists f rest r,
    file = Some f /\
    questions_handler file n language = (CallExtract (content f) :: rest, r).
Proof.
  unfold first_violation, questions_order. intros H.
  destruct file as [f|]; cbn [find violates] in H; [|discriminate].
  destruct (endswith (filename f) (lit ".pdf")) eqn:E1;
    cbn [negb] in H; [|discriminate].
  destruct ((n <? 1)%Z || (50 <? n)%Z) eqn:E2; [discriminate|].
  destruct (MAX_FILE_SIZE_BYTES <? len_bytes (content f))%Z eqn:E3;
    [discriminate|].
  exists f. unfold_handler.
  unfold validate_pdf_upload, check_num_questions, check_file_size.
  rewrite E1, E2, E3. cbn [negb].
  destruct (extract (content f)) as [text|e].
  - destruct (questions_of text n language) as [qs|e]; cbn [app].
    + cbv zeta. destruct (forallb utf8_encodable _);
        eexists _, _; split; reflexivity.
    + destruct e; eexists _, _; split; reflexivity.
  - destruct e; eexists _, _; split; reflexivity.
Qed.

(** C5 (amended). [upload_questions] validates in the order: a file was
    supplied, the name ends in [".pdf"], the question count is within
    [1, 50], the byte length is at most 70 MiB.  The first constraint
    violated in that order is the one reported, with status 400 and no
    call to extraction; when none is violated, extraction is the first
    call made. *)
Theorem questions_validation_order
    (file : option UploadFile) (n : Z) (language : str) :
  match first_violation questions_order file n with
  | Some c =>
      questions_handler file n language =
      ([], Raise (HTTPException 400 (constraint_detail c)))
  | None =>
      exists f rest r,
        file = Some f /\
        questions_handler file n language =
        (CallExtract (content f) :: rest, r)
  end.
Proof.
  destruct (first_violation questions_order file n) as [c|] eqn:E.
  - now apply questions_rejects.
  - now apply questions_passes.
Qed.

(** Oversized uploads on the two generation routes: status 400, before
    extraction. *)
Lemma summary_oversize_is_400 (f : UploadFile) (language : str) :
  (MAX_FILE_SIZE_BYTES < len_bytes (content f))%Z ->
  exists detail,
    summary_handler (Some f) language =
    ([], Raise (HTTPException 400 detail)).
Proof.
  intros H. apply Z.ltb_lt in H. unfold_handler.
  unfold validate_pdf_upload, check_file_size. rewrite H.
  destruct (endswith (filename f) (lit ".pdf")); cbn [negb];
    eexists; reflexivity.
Qed.

Lemma questions_oversize_is_400 (f : UploadFile) (n : Z) (language : str) :
  (MAX_FILE_SIZE_BYTES < len_bytes (content f))%Z ->
  exists detail,
    questions_handler (Some f) n language =
    ([], Raise (HTTPException 400 detail)).
Proof.
  intros H. apply Z.ltb_lt in H.
  destruct (first_violation questions_order (Some f) n) as [c|] eqn:E.
  - exists (constraint_detail c). now apply questions_rejects.
  - exfalso. unfold first_violation, questions_order in E.
    cbn [find violates] in E. rewrite H in E.
    destruct (negb _); [discriminate|].
    destruct (_ || _); discriminate.
Qed.

(** C6 on the extract-only route: the size check raises status 400 inside
    the [try], and the single [except Exception] clause turns it into
    status 500.  Extraction is not called. *)
Theorem extract_only_oversize_is_500 (f : UploadFile) :
  endswith (filename f) (lit ".pdf") = true ->
  (MAX_FILE_SIZE_BYTES < len_bytes (content f))%Z ->
  extract_handler (Some f) =
  ([], Raise (HTTPException 500
         (lit "Error: " ++
          str_HTTPException 400 (lit "File size exceeds 70 MB limit")))).
Proof.
  intros E H. apply Z.ltb_lt in H. unfold_handler.
  unfold validate_pdf_upload, check_file_size. rewrite E, H.
  reflexivity.
Qed.

(** Shape of a successful run of each generation route. *)
Lemma summary_ok_inv (file : option UploadFile) (language : str)
    (t : list call) (r : SummaryResponse) :
  summary_handler file language = (t, Ok r) ->
  exists f text s,
    file = Some f /\ extract (content f) = Ok text /\
    r = mk_summary_response true (filename f) s language (len text)
          (text_preview_of text).
Proof.
  unfold_handler. unfold validate_pdf_upload, check_file_size.
  destruct file as [f|]; [|discriminate].
  destruct (endswith (filename f) (lit ".pdf")); cbn [negb]; [|discriminate].
  destruct (MAX_FILE_SIZE_BYTES <? len_bytes (content f))%Z; [discriminate|].
  destruct (extract (content f)) as [text|e] eqn:He;
    [|destruct e; discriminate].
  destruct (generate_summary _ _ text language) as [s|e];
    [|destruct e; discriminate].
  cbv zeta. destruct (forallb utf8_encodable _); [|discriminate].
  intros H. injection H as _ <-. now exists f, text, s.
Qed.

Lemma questions_ok_inv (file : option UploadFile) (n : Z) (language : str)
    (t : list call) (r : QuestionsResponse) :
  questions_handler file n language = (t, Ok r) ->
  exists f text qs,
    file = Some f /\ extract (content f) = Ok text /\
    questions_of text n language = Ok qs /\
    r = mk_questions_response true (filename f) qs n language (len text)
          (text_preview_of text).
Proof.
  unfold_handler.
  unfold validate_pdf_upload, check_num_questions, check_file_size.
  destruct file as [f|]; [|discriminate].
  destruct (endswith (filename f) (lit ".pdf")); cbn [negb]; [|discriminate].
  destruct ((n <? 1)%Z || (50 <? n)%Z); [discriminate|].
  destruct (MAX_FILE_SIZE_BYTES <? len_bytes (content f))%Z; [discriminate|].
  destruct (extract (content f)) as [text|e] eqn:He;
    [|destruct e; discriminate].
  destruct (questions_of text n language) as [qs|e] eqn:Q;
    [|destruct e; discriminate].
  cbv zeta. destruct (forallb utf8_encodable _); [|discriminate].
  intros H. injection H as _ <-. now exists f, text, qs.
Qed.

(** C7. In a success response of either generation route, the preview is
    the first 200 characters of the extracted text followed by ["..."]
    when that text is longer than 200 characters, and the extracted text
    itself otherwise. *)
Theorem preview_is_first_200_chars
    (file : option UploadFile) (n : Z) (language : str) (t : list call) :
  (forall r,
      summary_handler file language = (t, Ok r) ->
      exists f text,
        file = Some f /\ extract (content f) = Ok text /\
        ((200 < len text)%Z ->
         sr_text_preview r = firstn 200 text ++ lit "...") /\
        ((len text <= 200)%Z -> sr_text_preview r = text)) /\
  (forall r,
      questions_handler file n language = (t, Ok r) ->
      exists f text,
        file = Some f /\ extract (content f) = Ok text /\
        ((200 < len text)%Z ->
         qr_text_preview r = firstn 200 text ++ lit "...") /\
        ((len text <= 200)%Z -> qr_text_preview r = text)).
Proof.
  split; intros r H.
  - destruct (summary_ok_inv _ _ H) as (f & text & s & -> & He & ->).
    exists f, text. cbn [sr_text_preview].
    repeat split; auto using text_preview_long, text_preview_short.
  - destruct (questions_ok_inv _ _ _ H)
      as (f & text & qs & -> & He & _ & ->).
    exists f, text. cbn [qr_text_preview].
    repeat split; auto using text_preview_long, text_preview_short.
Qed.

End WithCollaborators.

(** *** Concrete runs *)

Local Abbreviation english := (lit "English").

Example three_answers_lines :
  non_blank_lines three_answers =
  [lit "1. What is a text layer?"; lit "2. Why two decoders?";
   lit "3. When does extraction fail?"].
Proof. reflexivity. Qed.

Lemma question_list_is_non_blank_lines_witness :
  generate_questions sample_str_HTTPException (chat_answering three_answers)
    (lit "Some text") 3 english =
  Ok (non_blank_lines three_answers).
Proof.
  apply (@question_list_is_non_blank_lines sample_str_HTTPException
           (chat_answering three_answers) (lit "Some text") 3 english
           three_answers).
  reflexivity.
Defined.

Lemma oversized_name : endswith (filename oversized_pdf) (lit ".pdf") = true.
Proof. reflexivity. Qed.

(** C5 as stated fails: for an oversized upload with a question count of
    0, the listed order reports the size limit, while the handler reports
    the question count. *)
Lemma count_is_checked_before_size :
  first_violation listed_order (Some oversized_pdf) 0 = Some SizeLimit /\
  upload_questions sample_str_HTTPException utf8_stdout
    sample_utf8_error_text (fitz_returning []) (plumber_returning [])
    (chat_answering []) (Some oversized_pdf) 0 english
  = ([], Raise (HTTPException 400 (constraint_detail QuestionCount))) /\
  constraint_detail QuestionCount <> constraint_detail SizeLimit.
Proof.
  split; [|split].
  - unfold first_violation, listed_order. cbn [find violates].
    rewrite oversized_name, oversized_exceeds. reflexivity.
  - apply questions_rejects.
    unfold first_violation, questions_order. cbn [find violates].
    rewrite oversized_name. reflexivity.
  - vm_compute; discriminate.
Qed.

Lemma extract_only_oversize_is_500_witness :
  test_extract sample_str_HTTPException utf8_stdout sample_utf8_error_text
    (fitz_returning []) (plumber_returning []) (Some oversized_pdf) =
  ([], Raise (HTTPException 500
         (lit "Error: " ++
          sample_str_HTTPException 400
            (lit "File size exceeds 70 MB limit")))).
Proof.
  apply (@extract_only_oversize_is_500 sample_str_HTTPException
           utf8_stdout sample_utf8_error_text
           (fitz_returning []) (plumber_returning []) oversized_pdf).
  - exact oversized_name.
  - apply Z.ltb_lt. exact oversized_exceeds.
Defined.

Example extract_only_oversize_detail :
  lit "Error: " ++
  sample_str_HTTPException 400 (lit "File size exceeds 70 MB limit") =
  lit "Error: 400: File size exceeds 70 MB limit".
Proof. reflexivity. Qed.

Lemma preview_is_first_200_chars_witness :
  exists f text,
    Some small_pdf = Some f /\
    extract_text_from_pdf sample_str_HTTPException utf8_stdout
      (fitz_returning [Ok (repeat 97%N 250)]) (plumber_returning [])
      (content f) = Ok text /\
    ((200 < len text)%Z ->
     sr_text_preview
       (mk_summary_response true (lit "notes.pdf") (lit "Short.") english
          250 (repeat 97%N 200 ++ lit "...")) =
     firstn 200 text ++ lit "...") /\
    ((len text <= 200)%Z ->
     sr_text_preview
       (mk_summary_response true (lit "notes.pdf") (lit "Short.") english
          250 (repeat 97%N 200 ++ lit "...")) = text).
Proof.
  apply (proj1 (@preview_is_first_200_chars sample_str_HTTPException
           utf8_stdout sample_utf8_error_text
           (fitz_returning [Ok (repeat 97%N 250)]) (plumber_returning [])
           (chat_answering (lit " Short. ")) (Some small_pdf) 0 english
           [CallExtract (content small_pdf);
            CallSummary (repeat 97%N 250) english])).
  reflexivity.
Defined.

(** C10. The [num_questions] field of a success response is the request
    parameter, whatever the collaborator answered; and there are answers
    for which the list of questions has another length. *)
Theorem num_questions_is_echoed :
  (forall str_HTTPException stdout_rejects utf8_error_text
          fitz_open pdfplumber_open chat_create file n language t r,
      upload_questions str_HTTPException stdout_rejects utf8_error_text
        fitz_open pdfplumber_open chat_create file n language = (t, Ok r) ->
      qr_num_questions r = n) /\
  (exists t r,
      upload_questions sample_str_HTTPException utf8_stdout
        sample_utf8_error_text
        (fitz_returning [Ok (lit "Some text")]) (plumber_returning [])
        (chat_answering three_answers) (Some small_pdf) 5 english
      = (t, Ok r) /\
      qr_num_questions r = 5%Z /\
      qr_questions r = non_blank_lines three_answers /\
      Z.of_nat (List.length (qr_questions r)) = 3%Z /\
      Z.of_nat (List.length (qr_questions r)) <> qr_num_questions r).
Proof.
  split.
  - intros sh so ue fo po cc file n language t r H.
    destruct (questions_ok_inv _ _ _ _ _ _ _ _ _ H)
      as (f & text & qs & _ & _ & _ & ->).
    reflexivity.
  - eexists _, _. split; [reflexivity|]. repeat split.
    vm_compute; discriminate.
Qed.

Lemma num_questions_is_echoed_witness :
  qr_num_questions
    (mk_questions_response true (lit "notes.pdf")
       (non_blank_lines three_answers) 5 english 9 (lit "Some text")) = 5%Z.
Proof.
  apply (proj1 num_questions_is_echoed sample_str_HTTPException
           utf8_stdout sample_utf8_error_text
           (fitz_returning [Ok (lit "Some text")]) (plumber_returning [])
           (chat_answering three_answers) (Some small_pdf) 5%Z english
           [CallExtract (content small_pdf);
            CallQuestions (lit "Some text") 5 english]).
  reflexivity.
Defined.

End HandlerFacts.

(* ================================================================= *)
(** ** Further facts about the string operations *)

Module MoreStrFacts.
Import PyStr StrFacts LineFacts.

(** *** What [strip] removes *)

Lemma lstrip_decompose (s : str) :
  exists a, s = a ++ lstrip s /\ forallb isspace a = true.
Proof.
  induction s as [|c s (a & Ha & Hs)]; [now exists []|].
  simpl. destruct (isspace c) eqn:Hc.
  - exists (c :: a). simpl. rewrite Hc, Hs. split; [now f_equal | reflexivity].
  - now exists [].
Qed.

Lemma rstrip_decompose (s : str) :
  exists b, s = rstrip s ++ b /\ forallb isspace b = true.
Proof.
  induction s as [|c s (b & Hb & Hs)]; [now exists []|].
  rewrite rstrip_cons. destruct (rstrip s) as [|d r] eqn:E.
  - simpl in Hb. subst b. destruct (isspace c) eqn:Hc.
    + exists (c :: s). simpl. now rewrite Hc, Hs.
    + now exists s.
  - exists b. split; [|exact Hs]. simpl. f_equal. exact Hb.
Qed.

(** A string is its stripped form between two runs of white space. *)
Lemma strip_decompose (s : str) :
  exists a b,
    s = a ++ strip s ++ b /\
    forallb isspace a = true /\ forallb isspace b = true.
Proof.
  destruct (rstrip_decompose s) as (b & Hb & Bs).
  destruct (lstrip_decompose (rstrip s)) as (a & Ha & As).
  exists a, b. unfold strip. rewrite app_assoc, <- Ha. auto.
Qed.

Lemma lstrip_incl (s : str) (x : char) : In x (lstrip s) -> In x s.
Proof.
  destruct (lstrip_decompose s) as (a & Ha & _).
  intros H. rewrite Ha. apply in_or_app. now right.
Qed.

Lemma strip_incl (s : str) (x : char) : In x (strip s) -> In x s.
Proof.
  destruct (strip_decompose s) as (a & b & H & _).
  intros Hx. rewrite H. apply in_or_app. right. apply in_or_app. now left.
Qed.

(** *** Lines *)

Lemma split_no_sep (sep : char) (s : str) (l : str) :
  In l (split sep s) -> ~ In sep l.
Proof.
  revert l. induction s as [|c s IH]; intros l.
  - simpl. intros [<-|[]]. intros [].
  - rewrite split_cons. destruct (c =? sep)%N eqn:E.
    + intros [<-|H]; [intros [] | now apply IH].
    + destruct (split_not_nil sep s) as (l0 & ls & E0). rewrite E0 in *.
      intros [<-|H].
      * intros [->|H]; [now rewrite N.eqb_refl in E|].
        apply (IH l0); [now left | exact H].
      * apply IH. now right.
Qed.

Lemma blank_split (s : str) :
  forallb isspace s = forallb (forallb isspace) (split NL s).
Proof.
  induction s as [|c s IH]; [reflexivity|].
  rewrite split_cons. destruct (c =? NL)%N eqn:E.
  - apply N.eqb_eq in E. subst c. simpl. exact IH.
  - destruct (split_not_nil NL s) as (l0 & ls & E0). rewrite E0 in *.
    simpl in *. rewrite IH. now rewrite andb_assoc.
Qed.

Lemma filter_negb_nil_iff (A : Type) (f : A -> bool) (l : list A) :
  filter (fun x => negb (f x)) l = [] <-> forallb f l = true.
Proof.
  induction l as [|x l IH]; simpl; [tauto|].
  destruct (f x); simpl; [exact IH | split; discriminate].
Qed.

(** *** Words *)

Lemma split_ws_cons_word (c : char) (t : str) :
  isspace c = false -> split_ws (c :: t) <> [].
Proof.
  intros Hc. unfold split_ws. simpl.
  destruct (split_ws_go t) as [w ws]. rewrite Hc. simpl. discriminate.
Qed.

(** *** Slices with a literal bound *)

Lemma slice_to_nat (n : nat) (s : str) :
  slice_to (Z.of_nat n) s = firstn n s.
Proof.
  destruct (Nat.le_gt_cases n (List.length s)) as [H|H].
  - now apply slice_to_firstn.
  - unfold slice_to, slice_index, len.
    destruct (Z.of_nat n <? 0)%Z eqn:E; [lia|].
    replace (Z.to_nat (Z.min (Z.of_nat n) (Z.of_nat (List.length s))))
      with (List.length s) by lia.
    rewrite firstn_all. symmetry. apply firstn_all2. lia.
Qed.

Lemma slice_from_tail (n : nat) (s : str) :
  (0 < n <= List.length s)%nat ->
  slice_from (- Z.of_nat n) s = skipn (List.length s - n) s.
Proof.
  intros H. unfold slice_from, slice_index, len.
  destruct (- Z.of_nat n <? 0)%Z eqn:E; [|lia].
  f_equal. lia.
Qed.

End MoreStrFacts.

(* ================================================================= *)
(** ** The generation functions *)

Module GenerationFacts.
Import PyStr Py Analyzer StrFacts LineFacts MoreStrFacts.
Local Open Scope py_scope.

Lemma slice_to_Z (k : Z) (s : str) :
  (0 <= k)%Z -> slice_to k s = firstn (Z.to_nat k) s.
Proof.
  intros H. rewrite <- (Z2Nat.id k) at 1 by exact H. apply slice_to_nat.
Qed.

Lemma text_to_send_firstn (text : str) :
  text_to_send text = firstn (Z.to_nat 16000) text.
Proof.
  unfold text_to_send.
  destruct (Z.ltb_spec 16000 (len text)) as [H|H].
  - apply slice_to_Z. lia.
  - symmetry. apply firstn_all2. unfold len in H. lia.
Qed.

(** X1. The text handed to the collaborator is the prefix of the extracted
    text made of its first 16,000 characters: it is the whole text when
    that is no longer than 16,000 characters, and never longer than
    16,000. *)
Theorem text_sent_is_prefix (text : str) :
  text_to_send text = firstn (Z.to_nat 16000) text /\
  len (text_to_send text) = Z.min (len text) 16000 /\
  (exists rest, text = text_to_send text ++ rest) /\
  ((len text <= 16000)%Z -> text_to_send text = text).
Proof.
  rewrite text_to_send_firstn. repeat split.
  - unfold len. rewrite length_firstn. lia.
  - exists (skipn (Z.to_nat 16000) text). symmetry. apply firstn_skipn.
  - intros H. apply firstn_all2. unfold len in H. lia.
Qed.

Lemma text_sent_is_prefix_witness :
  text_to_send (lit "short text") = lit "short text".
Proof.
  apply (proj2 (proj2 (proj2 (text_sent_is_prefix (lit "short text"))))).
  vm_compute. discriminate.
Defined.

Section WithChat.

Variable str_HTTPException : Z -> str -> str.
Variable chat_create : chat_request -> result (option str).

Local Abbreviation summary_of :=
  (generate_summary str_HTTPException chat_create).
Local Abbreviation questions_of :=
  (generate_questions str_HTTPException chat_create).

(** X2. Both generation functions read the extracted text through its
    first 16,000 characters only: two texts that agree on them give the
    same result. *)
Theorem generation_reads_first_16000
    (text1 text2 : str) (n : Z) (language : str) :
  firstn (Z.to_nat 16000) text1 = firstn (Z.to_nat 16000) text2 ->
  summary_of text1 language = summary_of text2 language /\
  questions_of text1 n language = questions_of text2 n language.
Proof.
  intros H. unfold generate_summary, generate_questions.
  rewrite !text_to_send_firstn, H. split; reflexivity.
Qed.

Lemma summary_cases (text language : str) :
  summary_of text language =
  match chat_create (summary_request text language) with
  | Ok (Some content) => Ok (strip content)
  | Ok None => Raise (Exception (SUMMARY_ERROR_PREFIX ++ NONE_STRIP_MSG))
  | Raise e =>
      Raise (Exception (SUMMARY_ERROR_PREFIX ++ str_exn str_HTTPException e))
  end.
Proof.
  unfold generate_summary, summary_request.
  destruct (chat_create _) as [[content|]|e]; reflexivity.
Qed.

Lemma questions_cases (text : str) (n : Z) (language : str) :
  questions_of text n language =
  match chat_create (questions_request text n language) with
  | Ok (Some response) => Ok (non_blank_lines response)
  | Ok None => Raise (Exception (QUESTIONS_ERROR_PREFIX ++ NONE_STRIP_MSG))
  | Raise e =>
      Raise (Exception
               (QUESTIONS_ERROR_PREFIX ++ str_exn str_HTTPException e))
  end.
Proof.
  unfold generate_questions, questions_request.
  destruct (chat_create _) as [[response|]|e]; try reflexivity.
  cbn [bind try_except strip_content]. f_equal.
  rewrite filter_truthy_kept, kept_strip. apply kept_non_blank.
Qed.

Lemma summary_raise_inv (text language : str) (e : exn) :
  summary_of text language = Raise e ->
  exists m, e = Exception (SUMMARY_ERROR_PREFIX ++ m).
Proof.
  rewrite summary_cases.
  destruct (chat_create _) as [[content|]|e']; [discriminate| |];
    intros H; injection H as <-; eexists; reflexivity.
Qed.

Lemma questions_raise_inv (text : str) (n : Z) (language : str) (e : exn) :
  questions_of text n language = Raise e ->
  exists m, e = Exception (QUESTIONS_ERROR_PREFIX ++ m).
Proof.
  rewrite questions_cases.
  destruct (chat_create _) as [[content|]|e']; [discriminate| |];
    intros H; injection H as <-; eexists; reflexivity.
Qed.

(** X3. What [generate_summary] does follows what the collaborator call
    does.  A call that returns a string gives that string stripped, so a
    trimmed string.  A call that raises gives one [Exception] whose
    message is the fixed prefix followed by the text of that error.  A call
    that returns a message without content ([None]) gives one [Exception]
    too, the prefix followed by the text of the [AttributeError] of
    [None.strip()]. *)
Theorem summary_outcome (text language : str) :
  (forall content,
      chat_create (summary_request text language) = Ok (Some content) ->
      summary_of text language = Ok (strip content) /\
      strip (strip content) = strip content) /\
  (forall e',
      chat_create (summary_request text language) = Raise e' ->
      summary_of text language =
      Raise (Exception
               (SUMMARY_ERROR_PREFIX ++ str_exn str_HTTPException e'))) /\
  (chat_create (summary_request text language) = Ok None ->
   summary_of text language =
   Raise (Exception (SUMMARY_ERROR_PREFIX ++ NONE_STRIP_MSG))).
Proof.
  rewrite summary_cases. repeat split.
  - now rewrite H.
  - apply strip_idempotent.
  - intros e' H. now rewrite H.
  - intros H. now rewrite H.
Qed.

(** X4. Every question [generate_questions] returns is non-empty, is
    trimmed and holds no newline.  When the collaborator call raises,
    [generate_questions] raises one [Exception] whose message is the fixed
    prefix followed by the text of that error; when the call returns a
    message without content ([None]), it raises one [Exception] as well,
    the prefix followed by the text of the [AttributeError] of
    [None.strip()]. *)
Theorem questions_are_clean_lines (text : str) (n : Z) (language : str) :
  (forall qs,
      questions_of text n language = Ok qs ->
      forall q, In q qs -> q <> [] /\ strip q = q /\ ~ In NL q) /\
  (forall e',
      chat_create (questions_request text n language) = Raise e' ->
      questions_of text n language =
      Raise (Exception
               (QUESTIONS_ERROR_PREFIX ++ str_exn str_HTTPException e'))) /\
  (chat_create (questions_request text n language) = Ok None ->
   questions_of text n language =
   Raise (Exception (QUESTIONS_ERROR_PREFIX ++ NONE_STRIP_MSG))).
Proof.
  rewrite questions_cases. split; [|split].
  - destruct (chat_create (questions_request text n language))
      as [[response|]|e']; try discriminate.
    intros qs H q Hq. injection H as <-.
    unfold non_blank_lines in Hq. apply in_map_iff in Hq.
    destruct Hq as (l & <- & Hl). apply filter_In in Hl.
    destruct Hl as [Hl Hb]. unfold blank in Hb.
    rewrite <- truthy_strip in Hb. repeat split.
    + now apply truthy_true_iff.
    + apply strip_idempotent.
    + intros Hn. apply strip_incl in Hn.
      exact (split_no_sep _ _ _ Hl Hn).
  - intros e' H. now rewrite H.
  - intros H. now rewrite H.
Qed.

(** X5. For an answer of the collaborator, the list of questions is empty
    exactly when the answer holds white space only; an empty or blank
    answer is not an error. *)
Theorem no_questions_iff_blank_answer
    (text : str) (n : Z) (language response : str) :
  chat_create (questions_request text n language) = Ok (Some response) ->
  (questions_of text n language = Ok [] <->
   forallb isspace response = true).
Proof.
  intros H. rewrite questions_cases, H. unfold non_blank_lines.
  rewrite blank_split. split.
  - intros E. injection E as E. apply map_eq_nil in E.
    now apply filter_negb_nil_iff in E.
  - intros E. f_equal. apply (filter_negb_nil_iff blank) in E.
    now rewrite E.
Qed.

End WithChat.

Lemma generation_reads_first_16000_witness :
  generate_summary sample_str_HTTPException (chat_answering three_answers)
    long_text_a (lit "English") =
  generate_summary sample_str_HTTPException (chat_answering three_answers)
    long_text_b (lit "English").
Proof.
  apply (proj1 (@generation_reads_first_16000 sample_str_HTTPException
           (chat_answering three_answers) long_text_a long_text_b 3
           (lit "English") eq_refl)).
Defined.

Lemma summary_outcome_witness :
  (generate_summary sample_str_HTTPException (chat_answering (lit " Ok. "))
     [] (lit "English") = Ok (strip (lit " Ok. ")) /\
   strip (strip (lit " Ok. ")) = strip (lit " Ok. ")) /\
  generate_summary sample_str_HTTPException (chat_raising (lit "rate limit"))
    [] (lit "English") =
  Raise (Exception
           (SUMMARY_ERROR_PREFIX ++
            str_exn sample_str_HTTPException
              (LibraryError (lit "rate limit")))) /\
  generate_summary sample_str_HTTPException chat_without_content
    [] (lit "English") =
  Raise (Exception (SUMMARY_ERROR_PREFIX ++ NONE_STRIP_MSG)).
Proof.
  split; [|split].
  - apply (proj1 (@summary_outcome sample_str_HTTPException
             (chat_answering (lit " Ok. ")) [] (lit "English"))).
    reflexivity.
  - apply (proj1 (proj2 (@summary_outcome sample_str_HTTPException
             (chat_raising (lit "rate limit")) [] (lit "English")))).
    reflexivity.
  - apply (proj2 (proj2 (@summary_outcome sample_str_HTTPException
             chat_without_content [] (lit "English")))).
    reflexivity.
Defined.

Example summary_without_content_message :
  SUMMARY_ERROR_PREFIX ++ NONE_STRIP_MSG =
  lit "Error generating summary with OpenAI: 'NoneType' object has no attribute 'strip'".
Proof. reflexivity. Qed.

Lemma questions_are_clean_lines_witness :
  (lit "2. Why two decoders?" <> [] /\
   strip (lit "2. Why two decoders?") = lit "2. Why two decoders?" /\
   ~ In NL (lit "2. Why two decoders?")) /\
  generate_questions sample_str_HTTPException
    (chat_raising (lit "rate limit")) [] 3 (lit "English") =
  Raise (Exception
           (QUESTIONS_ERROR_PREFIX ++
            str_exn sample_str_HTTPException
              (LibraryError (lit "rate limit")))) /\
  generate_questions sample_str_HTTPException chat_without_content
    [] 3 (lit "English") =
  Raise (Exception (QUESTIONS_ERROR_PREFIX ++ NONE_STRIP_MSG)).
Proof.
  split; [|split].
  - apply (proj1 (@questions_are_clean_lines sample_str_HTTPException
             (chat_answering three_answers) [] 3 (lit "English"))
             (non_blank_lines three_answers) eq_refl).
    vm_compute. auto.
  - apply (proj1 (proj2 (@questions_are_clean_lines
             sample_str_HTTPException (chat_raising (lit "rate limit"))
             [] 3 (lit "English")))).
    reflexivity.
  - apply (proj2 (proj2 (@questions_are_clean_lines
             sample_str_HTTPException chat_without_content
             [] 3 (lit "English")))).
    reflexivity.
Defined.

Lemma no_questions_iff_blank_answer_witness :
  generate_questions sample_str_HTTPException
    (chat_answering (lit "   ")) [] 3 (lit "English") = Ok [].
Proof.
  apply (proj2 (@no_questions_iff_blank_answer sample_str_HTTPException
           (chat_answering (lit "   ")) [] 3 (lit "English") (lit "   ")
           eq_refl)).
  reflexivity.
Defined.

End GenerationFacts.

(* ================================================================= *)
(** ** More on the extraction engine *)

Module MoreExtractionFacts.
Import PyStr Py Analyzer StrFacts MoreStrFacts ExtractionFacts.
Local Open Scope py_scope.

Section WithDecoders.

Variable str_HTTPException : Z -> str -> str.
Variable stdout_rejects : str -> option str.
Variable fitz_open : bytes -> result fitz_doc.
Variable pdfplumber_open : bytes -> result plumber_doc.

Local Abbreviation extract :=
  (extract_text_from_pdf str_HTTPException stdout_rejects fitz_open
     pdfplumber_open).
Local Abbreviation failed_line :=
  (primary_failed_line str_HTTPException).

Lemma fallback_raise_inv (secondary : result (list (option str))) (e : exn) :
  fallback_outcome str_HTTPException secondary = Raise e ->
  (exists pages2,
      secondary = Ok pages2 /\
      strip (join_pages (map text_of pages2)) = [] /\
      e = Exception (EXTRACT_ERROR_PREFIX ++ NO_TEXT_MSG)) \/
  (exists e2,
      secondary = Raise e2 /\
      e = Exception (EXTRACT_ERROR_PREFIX ++ str_exn str_HTTPException e2)).
Proof.
  unfold fallback_outcome. destruct secondary as [ps|e2].
  - cbv zeta. destruct (truthy _) eqn:E; [discriminate|].
    intros H. injection H as <-. left. exists ps.
    apply truthy_nil_iff in E. auto.
  - intros H. injection H as <-. right. now exists e2.
Qed.

(** What extraction raises is never an [HTTPException]: it is the one
    [Exception] of the last [except] clause, or the error of the [print]
    of the first one. *)
Lemma extract_raise_inv (file_content : bytes) (e : exn) :
  extract file_content = Raise e ->
  exists m, e = Exception m \/ e = LibraryError m.
Proof.
  rewrite extract_refines. unfold extraction_outcome. intros H.
  assert (F : fallback_outcome str_HTTPException
                (pages_of (pdfplumber_open file_content)) = Raise e ->
              exists m, e = Exception m \/ e = LibraryError m).
  { intros F.
    destruct (fallback_raise_inv _ F) as [(p & _ & _ & ->)|(e2 & _ & ->)];
      eexists; left; reflexivity. }
  destruct (pages_of (fitz_open file_content)) as [ps|e1].
  - cbv zeta in H. destruct (usable _); [discriminate | auto].
  - destruct (stdout_rejects (failed_line e1)) as [msg|]; [|auto].
    injection H as <-. exists msg. now right.
Qed.

(** X6. Extraction raises in two situations only.  Either the primary
    attempt raised and the line logging its error could not be printed:
    the error of that [print] leaves the function, whatever the secondary
    decoder would have given.  Or both strategies failed: the primary
    attempt raised (and was logged) or did not pass the quality gate, and
    the fallback yielded empty trimmed text or raised; what is raised then
    is one [Exception] whose message starts with the fixed prefix. *)
Theorem extraction_failure_cases (file_content : bytes) :
  (forall e1 msg,
      pages_of (fitz_open file_content) = Raise e1 ->
      stdout_rejects (failed_line e1) = Some msg ->
      extract file_content = Raise (LibraryError msg)) /\
  (forall e,
      extract file_content = Raise e ->
      (exists e1 msg,
          pages_of (fitz_open file_content) = Raise e1 /\
          stdout_rejects (failed_line e1) = Some msg /\
          e = LibraryError msg) \/
      (((exists e1,
            pages_of (fitz_open file_content) = Raise e1 /\
            stdout_rejects (failed_line e1) = None) \/
        (exists pages,
            pages_of (fitz_open file_content) = Ok pages /\
            (strip (join_pages pages) = [] \/
             startswith (strip (join_pages pages)) CID_PREFIX = true))) /\
       ((exists pages2,
            pages_of (pdfplumber_open file_content) = Ok pages2 /\
            strip (join_pages (map text_of pages2)) = [] /\
            e = Exception (EXTRACT_ERROR_PREFIX ++ NO_TEXT_MSG)) \/
        (exists e2,
            pages_of (pdfplumber_open file_content) = Raise e2 /\
            e = Exception
                  (EXTRACT_ERROR_PREFIX ++
                   str_exn str_HTTPException e2))))).
Proof.
  rewrite extract_refines. unfold extraction_outcome. split.
  - intros e1 msg -> P. now rewrite P.
  - intros e.
    destruct (pages_of (fitz_open file_content)) as [ps|e1].
    + cbv zeta. destruct (usable _) eqn:U; [discriminate|].
      intros H. right. split; [|now apply fallback_raise_inv].
      right. exists ps. split; [reflexivity|]. now apply usable_false_iff.
    + destruct (stdout_rejects (failed_line e1)) as [msg|] eqn:P.
      * intros H. injection H as <-. left. now exists e1, msg.
      * intros H. right. split; [|now apply fallback_raise_inv].
        left. now exists e1.
Qed.

(** X7. Extraction neither invents nor loses text: a returned string is
    the joined page texts of one decoder with white space removed at both
    ends, and nothing else changed.  It is the primary decoder's text only
    if that does not begin with ["(cid:"]. *)
Theorem extracted_text_is_joined_pages (file_content : bytes) (s : str) :
  extract file_content = Ok s ->
  (exists pages a b,
      pages_of (fitz_open file_content) = Ok pages /\
      join_pages pages = a ++ s ++ b /\
      blank a = true /\ blank b = true /\
      startswith s CID_PREFIX = false) \/
  (exists pages2 a b,
      pages_of (pdfplumber_open file_content) = Ok pages2 /\
      join_pages (map text_of pages2) = a ++ s ++ b /\
      blank a = true /\ blank b = true).
Proof.
  rewrite extract_refines. unfold extraction_outcome. intros H.
  assert (F : fallback_outcome str_HTTPException
                (pages_of (pdfplumber_open file_content)) = Ok s ->
              exists pages2 a b,
                pages_of (pdfplumber_open file_content) = Ok pages2 /\
                join_pages (map text_of pages2) = a ++ s ++ b /\
                blank a = true /\ blank b = true).
  { unfold fallback_outcome.
    destruct (pages_of (pdfplumber_open file_content)) as [p2|e2];
      [|discriminate].
    cbv zeta. destruct (truthy _); [|discriminate].
    intros E. injection E as <-.
    destruct (strip_decompose (join_pages (map text_of p2)))
      as (a & b & D & Ha & Hb).
    now exists p2, a, b. }
  destruct (pages_of (fitz_open file_content)) as [ps|e1];
    [|destruct (stdout_rejects _); [discriminate | right; auto]].
  cbv zeta in H. destruct (usable _) eqn:U; [|right; auto].
  injection H as <-. left.
  destruct (strip_decompose (join_pages ps)) as (a & b & D & Ha & Hb).
  exists ps, a, b. apply usable_true_iff in U. tauto.
Qed.

End WithDecoders.

Lemma extraction_failure_cases_witness :
  extract_text_from_pdf sample_str_HTTPException ascii_stdout
    (fitz_raising [233%N]) (plumber_returning [Ok (Some (lit "Hello"))]) []
  = Raise (LibraryError
      (lit "'ascii' codec can't encode character: ordinal not in range(128)"))
  /\
  ((exists e1 msg,
       pages_of (fitz_raising (lit "cannot open broken document") []) =
       Raise e1 /\
       utf8_stdout (primary_failed_line sample_str_HTTPException e1) =
       Some msg /\
       Exception (EXTRACT_ERROR_PREFIX ++ NO_TEXT_MSG) = LibraryError msg) \/
   (((exists e1,
         pages_of (fitz_raising (lit "cannot open broken document") []) =
         Raise e1 /\
         utf8_stdout (primary_failed_line sample_str_HTTPException e1) =
         None) \/
     (exists pages,
         pages_of (fitz_raising (lit "cannot open broken document") []) =
         Ok pages /\
         (strip (join_pages pages) = [] \/
          startswith (strip (join_pages pages)) CID_PREFIX = true))) /\
    ((exists pages2,
         pages_of (plumber_returning [Ok None] []) = Ok pages2 /\
         strip (join_pages (map text_of pages2)) = [] /\
         Exception (EXTRACT_ERROR_PREFIX ++ NO_TEXT_MSG) =
         Exception (EXTRACT_ERROR_PREFIX ++ NO_TEXT_MSG)) \/
     (exists e2,
         pages_of (plumber_returning [Ok None] []) = Raise e2 /\
         Exception (EXTRACT_ERROR_PREFIX ++ NO_TEXT_MSG) =
         Exception
           (EXTRACT_ERROR_PREFIX ++
            str_exn sample_str_HTTPException e2))))).
Proof.
  split.
  - apply (proj1 (@extraction_failure_cases sample_str_HTTPException
             ascii_stdout (fitz_raising [233%N])
             (plumber_returning [Ok (Some (lit "Hello"))]) [])
             (LibraryError [233%N])); reflexivity.
  - apply (proj2 (@extraction_failure_cases sample_str_HTTPException
             utf8_stdout (fitz_raising (lit "cannot open broken document"))
             (plumber_returning [Ok None]) [])
             (Exception (EXTRACT_ERROR_PREFIX ++ NO_TEXT_MSG))).
    reflexivity.
Defined.

Lemma extracted_text_is_joined_pages_witness :
  (exists pages a b,
      pages_of (fitz_returning [Ok (lit " Hello "); Ok []] []) = Ok pages /\
      join_pages pages = a ++ lit "Hello" ++ b /\
      blank a = true /\ blank b = true /\
      startswith (lit "Hello") CID_PREFIX = false) \/
  (exists pages2 a b,
      pages_of (plumber_returning [] []) = Ok pages2 /\
      join_pages (map text_of pages2) = a ++ lit "Hello" ++ b /\
      blank a = true /\ blank b = true).
Proof.
  apply (@extracted_text_is_joined_pages sample_str_HTTPException
           utf8_stdout (fitz_returning [Ok (lit " Hello "); Ok []])
           (plumber_returning []) [] (lit "Hello")).
  reflexivity.
Defined.

End MoreExtractionFacts.

(* ================================================================= *)
(** ** The three routes, case by case *)

Module RouteFacts.
Import PyStr Py Analyzer StrFacts MoreStrFacts ExtractionFacts.
Import MoreExtractionFacts GenerationFacts HandlerFacts.
Local Open Scope py_scope.

Section WithCollaborators.

Variable str_HTTPException : Z -> str -> str.
Variable stdout_rejects : str -> option str.
Variable utf8_error_text : list str -> str.
Variable fitz_open : bytes -> result fitz_doc.
Variable pdfplumber_open : bytes -> result plumber_doc.
Variable chat_create : chat_request -> result (option str).

Local Abbreviation extract :=
  (extract_text_from_pdf str_HTTPException stdout_rejects fitz_open
     pdfplumber_open).
Local Abbreviation summary_of :=
  (generate_summary str_HTTPException chat_create).
Local Abbreviation questions_of :=
  (generate_questions str_HTTPException chat_create).
Local Abbreviation summary_handler :=
  (upload_summary str_HTTPException stdout_rejects utf8_error_text
     fitz_open pdfplumber_open chat_create).
Local Abbreviation questions_handler :=
  (upload_questions str_HTTPException stdout_rejects utf8_error_text
     fitz_open pdfplumber_open chat_create).
Local Abbreviation extract_handler :=
  (test_extract str_HTTPException stdout_rejects utf8_error_text
     fitz_open pdfplumber_open).
Local Abbreviation str_of := (str_exn str_HTTPException).

Ltac unfold_route :=
  unfold upload_summary, upload_questions, test_extract,
    reraise_http_wrap_others, wrap_all, do_extract, do_summary,
    do_questions, calling, pure, hbind, the_file, json_response,
    validate_pdf_upload, check_num_questions, check_file_size.

(** *** Requests that pass validation *)

Lemma summary_order_none (file : option UploadFile) (n : Z) :
  first_violation summary_order file n = None ->
  exists f,
    file = Some f /\
    endswith (filename f) (lit ".pdf") = true /\
    (MAX_FILE_SIZE_BYTES <? len_bytes (content f))%Z = false.
Proof.
  unfold first_violation, summary_order.
  destruct file as [f|]; cbn [find violates]; [|discriminate].
  destruct (endswith (filename f) (lit ".pdf")) eqn:E1;
    cbn [negb]; [|discriminate].
  destruct (MAX_FILE_SIZE_BYTES <? len_bytes (content f))%Z eqn:E3;
    [discriminate|].
  intros _. now exists f.
Qed.

Lemma questions_order_none (file : option UploadFile) (n : Z) :
  first_violation questions_order file n = None ->
  exists f,
    file = Some f /\
    endswith (filename f) (lit ".pdf") = true /\
    ((n <? 1) || (50 <? n))%Z = false /\
    (MAX_FILE_SIZE_BYTES <? len_bytes (content f))%Z = false.
Proof.
  unfold first_violation, questions_order.
  destruct file as [f|]; cbn [find violates]; [|discriminate].
  destruct (endswith (filename f) (lit ".pdf")) eqn:E1;
    cbn [negb]; [|discriminate].
  destruct ((n <? 1) || (50 <? n))%Z eqn:E2; [discriminate|].
  destruct (MAX_FILE_SIZE_BYTES <? len_bytes (content f))%Z eqn:E3;
    [discriminate|].
  intros _. now exists f.
Qed.

Lemma summary_rejects (file : option UploadFile) (n : Z) (language : str)
    (c : constraint) :
  first_violation summary_order file n = Some c ->
  summary_handler file language =
  ([], Raise (HTTPException 400 (constraint_detail c))).
Proof.
  unfold first_violation, summary_order. unfold_route.
  destruct file as [f|]; cbn [find violates].
  - destruct (endswith (filename f) (lit ".pdf")); cbn [negb].
    + destruct (MAX_FILE_SIZE_BYTES <? len_bytes (content f))%Z;
        [|discriminate].
      intros H. injection H as <-. rewrite size_detail. reflexivity.
    + intros H. injection H as <-. reflexivity.
  - intros H. injection H as <-. reflexivity.
Qed.

Lemma extract_only_rejects (file : option UploadFile) (n : Z)
    (c : constraint) :
  first_violation summary_order file n = Some c ->
  extract_handler file =
  ([], Raise (HTTPException 500
         (lit "Error: " ++ str_HTTPException 400 (constraint_detail c)))).
Proof.
  unfold first_violation, summary_order. unfold_route.
  destruct file as [f|]; cbn [find violates].
  - destruct (endswith (filename f) (lit ".pdf")); cbn [negb].
    + destruct (MAX_FILE_SIZE_BYTES <? len_bytes (content f))%Z;
        [|discriminate].
      intros H. injection H as <-. rewrite size_detail. reflexivity.
    + intros H. injection H as <-. reflexivity.
  - intros H. injection H as <-. reflexivity.
Qed.

(** What each route does once validation has passed. *)
Lemma summary_run (f : UploadFile) (language : str) :
  endswith (filename f) (lit ".pdf") = true ->
  (MAX_FILE_SIZE_BYTES <? len_bytes (content f))%Z = false ->
  summary_handler (Some f) language =
  match extract (content f) with
  | Raise e =>
      ([CallExtract (content f)],
       Raise (HTTPException 500 (PROCESSING_ERROR_PREFIX ++ str_of e)))
  | Ok text =>
      match summary_of text language with
      | Raise e =>
          ([CallExtract (content f); CallSummary text language],
           Raise (HTTPException 500 (PROCESSING_ERROR_PREFIX ++ str_of e)))
      | Ok summary =>
          let response :=
            mk_summary_response true (filename f) summary language
              (len text) (text_preview_of text) in
          ([CallExtract (content f); CallSummary text language],
           if forallb utf8_encodable (summary_strings response)
           then Ok response
           else Raise (HTTPException 500
                  (PROCESSING_ERROR_PREFIX ++
                   utf8_error_text (summary_strings response))))
      end
  end.
Proof.
  intros H1 H2. unfold_route. rewrite H1, H2. cbn [negb].
  destruct (extract (content f)) as [text|e] eqn:E.
  - destruct (summary_of text language) as [summary|e] eqn:G.
    + cbv zeta. destruct (forallb utf8_encodable _); reflexivity.
    + destruct (summary_raise_inv _ _ _ _ G) as [m ->]. reflexivity.
  - destruct (extract_raise_inv _ _ _ _ _ E) as [m [-> | ->]]; reflexivity.
Qed.

Lemma questions_run (f : UploadFile) (n : Z) (language : str) :
  endswith (filename f) (lit ".pdf") = true ->
  ((n <? 1) || (50 <? n))%Z = false ->
  (MAX_FILE_SIZE_BYTES <? len_bytes (content f))%Z = false ->
  questions_handler (Some f) n language =
  match extract (content f) with
  | Raise e =>
      ([CallExtract (content f)],
       Raise (HTTPException 500 (PROCESSING_ERROR_PREFIX ++ str_of e)))
  | Ok text =>
      match questions_of text n language with
      | Raise e =>
          ([CallExtract (content f); CallQuestions text n language],
           Raise (HTTPException 500 (PROCESSING_ERROR_PREFIX ++ str_of e)))
      | Ok questions =>
          let response :=
            mk_questions_response true (filename f) questions n language
              (len text) (text_preview_of text) in
          ([CallExtract (content f); CallQuestions text n language],
           if forallb utf8_encodable (questions_strings response)
           then Ok response
           else Raise (HTTPException 500
                  (PROCESSING_ERROR_PREFIX ++
                   utf8_error_text (questions_strings response))))
      end
  end.
Proof.
  intros H1 H2 H3. unfold_route. rewrite H1, H2, H3. cbn [negb].
  destruct (extract (content f)) as [text|e] eqn:E.
  - destruct (questions_of text n language) as [questions|e] eqn:G.
    + cbv zeta. destruct (forallb utf8_encodable _); reflexivity.
    + destruct (questions_raise_inv _ _ _ _ _ G) as [m ->]. reflexivity.
  - destruct (extract_raise_inv _ _ _ _ _ E) as [m [-> | ->]]; reflexivity.
Qed.

Lemma extract_only_run (f : UploadFile) :
  endswith (filename f) (lit ".pdf") = true ->
  (MAX_FILE_SIZE_BYTES <? len_bytes (content f))%Z = false ->
  extract_handler (Some f) =
  match extract (content f) with
  | Raise e =>
      ([CallExtract (content f)],
       Raise (HTTPException 500 (lit "Error: " ++ str_of e)))
  | Ok text =>
      let response :=
        mk_extract_response true (filename f) (len text)
          (Z.of_nat (List.length (split_ws text)))
          (slice_to 500 text)
          (if (500 <? len text)%Z then slice_from (-500) text else text)
          (len text) in
      ([CallExtract (content f)],
       if forallb utf8_encodable (extract_strings response)
       then Ok response
       else Raise (HTTPException 500
              (lit "Error: " ++ utf8_error_text (extract_strings response))))
  end.
Proof.
  intros H1 H2. unfold_route. rewrite H1, H2. cbn [negb].
  destruct (extract (content f)); [|reflexivity].
  cbv zeta. destruct (forallb utf8_encodable _); reflexivity.
Qed.

Lemma extracted_len_pos (file_content : bytes) (text : str) :
  extract file_content = Ok text -> (0 < len text)%Z.
Proof.
  intros H. destruct (extract_ok_inv _ _ _ _ _ H) as (t0 & _ & Hne).
  unfold len. destruct text; [congruence | simpl; lia].
Qed.

Lemma preview_len (text : str) :
  len (text_preview_of text) =
  if (200 <? len text)%Z then 203%Z else len text.
Proof.
  destruct (Z.ltb_spec 200 (len text)) as [H|H].
  - rewrite text_preview_long by exact H.
    unfold len in *. rewrite length_app, length_firstn.
    change (List.length (lit "...")) with 3%nat. lia.
  - now rewrite text_preview_short.
Qed.

(** X8. [upload_summary] validates in the order: a file was supplied, the
    name ends in [".pdf"], the byte length is at most 70 MiB.  The first
    constraint violated is reported with status 400 and no call to
    extraction; when none is violated, extraction is the first call. *)
Theorem summary_validation_order
    (file : option UploadFile) (language : str) :
  match first_violation summary_order file 0 with
  | Some c =>
      summary_handler file language =
      ([], Raise (HTTPException 400 (constraint_detail c)))
  | None =>
      exists f rest r,
        file = Some f /\
        summary_handler file language = (CallExtract (content f) :: rest, r)
  end.
Proof.
  destruct (first_violation summary_order file 0) as [c|] eqn:E.
  - now apply (summary_rejects _ 0).
  - destruct (summary_order_none _ _ E) as (f & -> & H1 & H2).
    exists f. rewrite summary_run by assumption.
    destruct (extract (content f)) as [text|e];
      [destruct (summary_of text language)|];
      eexists _, _; split; reflexivity.
Qed.

(** X9. Once an upload has passed validation, [upload_summary] turns
    each later failure into status 500 with a detail that starts with
    ["Error processing PDF: "].  If extraction raises, extraction is the
    only stage called and the detail ends with the text of its error.  If
    generation raises, both stages were called and the detail ends with
    the message of generation, which itself starts with ["Error generating
    summary with OpenAI: "].  If the body cannot be encoded as UTF-8 (a
    surrogate in the file name, the summary, the language or the preview),
    both stages were called and the detail ends with the text of the
    encoding error; no success response is returned. *)
Theorem summary_failure_cases (f : UploadFile) (language : str) :
  endswith (filename f) (lit ".pdf") = true ->
  (len_bytes (content f) <= MAX_FILE_SIZE_BYTES)%Z ->
  (forall e0,
      extract (content f) = Raise e0 ->
      exists m,
        (e0 = Exception m \/ e0 = LibraryError m) /\
        summary_handler (Some f) language =
        ([CallExtract (content f)],
         Raise (HTTPException 500 (PROCESSING_ERROR_PREFIX ++ m)))) /\
  (forall text e1,
      extract (content f) = Ok text ->
      summary_of text language = Raise e1 ->
      exists m,
        e1 = Exception (SUMMARY_ERROR_PREFIX ++ m) /\
        summary_handler (Some f) language =
        ([CallExtract (content f); CallSummary text language],
         Raise (HTTPException 500
                  (PROCESSING_ERROR_PREFIX ++
                   (SUMMARY_ERROR_PREFIX ++ m))))) /\
  (forall text summary,
      extract (content f) = Ok text ->
      summary_of text language = Ok summary ->
      forallb utf8_encodable
        [filename f; summary; language; text_preview_of text] = false ->
      summary_handler (Some f) language =
      ([CallExtract (content f); CallSummary text language],
       Raise (HTTPException 500
                (PROCESSING_ERROR_PREFIX ++
                 utf8_error_text
                   [filename f; summary; language;
                    text_preview_of text])))).
Proof.
  intros H1 H2. apply Z.ltb_ge in H2.
  rewrite summary_run by assumption. repeat split.
  - intros e0 E. rewrite E.
    destruct (extract_raise_inv _ _ _ _ _ E) as [m [-> | ->]];
      exists m; auto.
  - intros text e1 E G. rewrite E, G.
    destruct (summary_raise_inv _ _ _ _ G) as [m ->]. now exists m.
  - intros text summary E G U. rewrite E, G. cbv zeta.
    unfold summary_strings.
    cbn [sr_filename sr_summary sr_language sr_text_preview].
    now rewrite U.
Qed.

(** X10. The same for [upload_questions]: after validation, a failure of
    extraction, of generation, or of the encoding of the body (a surrogate
    in the file name, a question, the language or the preview) gives
    status 500 with a detail starting with ["Error processing PDF: "],
    after one stage in the first case and both in the others. *)
Theorem questions_failure_cases
    (f : UploadFile) (n : Z) (language : str) :
  endswith (filename f) (lit ".pdf") = true ->
  (1 <= n <= 50)%Z ->
  (len_bytes (content f) <= MAX_FILE_SIZE_BYTES)%Z ->
  (forall e0,
      extract (content f) = Raise e0 ->
      exists m,
        (e0 = Exception m \/ e0 = LibraryError m) /\
        questions_handler (Some f) n language =
        ([CallExtract (content f)],
         Raise (HTTPException 500 (PROCESSING_ERROR_PREFIX ++ m)))) /\
  (forall text e1,
      extract (content f) = Ok text ->
      questions_of text n language = Raise e1 ->
      exists m,
        e1 = Exception (QUESTIONS_ERROR_PREFIX ++ m) /\
        questions_handler (Some f) n language =
        ([CallExtract (content f); CallQuestions text n language],
         Raise (HTTPException 500
                  (PROCESSING_ERROR_PREFIX ++
                   (QUESTIONS_ERROR_PREFIX ++ m))))) /\
  (forall text questions,
      extract (content f) = Ok text ->
      questions_of text n language = Ok questions ->
      forallb utf8_encodable
        (filename f :: questions ++ [language; text_preview_of text])
      = false ->
      questions_handler (Some f) n language =
      ([CallExtract (content f); CallQuestions text n language],
       Raise (HTTPException 500
                (PROCESSING_ERROR_PREFIX ++
                 utf8_error_text
                   (filename f :: questions ++
                    [language; text_preview_of text]))))).
Proof.
  intros H1 Hn H2. apply Z.ltb_ge in H2.
  assert (H3 : ((n <? 1) || (50 <? n))%Z = false).
  { apply orb_false_iff. split; apply Z.ltb_ge; lia. }
  rewrite questions_run by assumption. repeat split.
  - intros e0 E. rewrite E.
    destruct (extract_raise_inv _ _ _ _ _ E) as [m [-> | ->]];
      exists m; auto.
  - intros text e1 E G. rewrite E, G.
    destruct (questions_raise_inv _ _ _ _ _ G) as [m ->]. now exists m.
  - intros text questions E G U. rewrite E, G. cbv zeta.
    unfold questions_strings.
    cbn [qr_filename qr_questions qr_language qr_text_preview].
    now rewrite U.
Qed.

(** X11. On the extract-only route no failure has status 400: a missing
    file, a name not ending in [".pdf"] and an oversized upload are each
    reported with status 500, the detail being ["Error: "] followed by the
    text of the status-400 exception; every other failure is a status 500
    with a detail starting with ["Error: "] as well. *)
Theorem extract_only_failures_are_500 (file : option UploadFile) :
  (forall c,
      first_violation summary_order file 0 = Some c ->
      extract_handler file =
      ([], Raise (HTTPException 500
             (lit "Error: " ++
              str_HTTPException 400 (constraint_detail c))))) /\
  (forall t e,
      extract_handler file = (t, Raise e) ->
      exists d, e = HTTPException 500 (lit "Error: " ++ d)).
Proof.
  split; [intros c; apply extract_only_rejects|].
  intros t e.
  destruct (first_violation summary_order file 0) as [c|] eqn:E.
  - rewrite (extract_only_rejects _ 0 E).
    intros H. injection H as _ <-. eexists. reflexivity.
  - destruct (summary_order_none _ _ E) as (f & -> & H1 & H2).
    rewrite extract_only_run by assumption.
    destruct (extract (content f)).
    + cbv zeta. destruct (forallb utf8_encodable _); [discriminate|].
      intros H. injection H as _ <-. eexists. reflexivity.
    + intros H. injection H as _ <-. eexists. reflexivity.
Qed.

(** X12. A success of [upload_summary] means: the upload passed the three
    validations; extraction was called once on its content and then
    generation once on the extracted text, in that order; the response
    echoes the file name and the language, carries the collaborator's
    answer stripped, and a character count that is the length of the
    extracted text and is positive. *)
Theorem summary_success_shape
    (file : option UploadFile) (language : str)
    (t : list call) (r : SummaryResponse) :
  summary_handler file language = (t, Ok r) ->
  exists f text answer,
    file = Some f /\
    endswith (filename f) (lit ".pdf") = true /\
    (len_bytes (content f) <= MAX_FILE_SIZE_BYTES)%Z /\
    extract (content f) = Ok text /\
    chat_create (summary_request text language) = Ok (Some answer) /\
    t = [CallExtract (content f); CallSummary text language] /\
    r = mk_summary_response true (filename f) (strip answer) language
          (len text) (text_preview_of text) /\
    (0 < sr_extracted_chars r)%Z.
Proof.
  destruct (first_violation summary_order file 0) as [c|] eqn:E.
  - rewrite (summary_rejects _ 0 _ E). discriminate.
  - destruct (summary_order_none _ _ E) as (f & -> & H1 & H2).
    rewrite summary_run by assumption.
    destruct (extract (content f)) as [text|e0] eqn:X; [|discriminate].
    rewrite summary_cases.
    destruct (chat_create (summary_request text language))
      as [[a|]|e'] eqn:C; [|discriminate|discriminate].
    cbv zeta. destruct (forallb utf8_encodable _); [|discriminate].
    intros H. injection H as <- <-. exists f, text, a.
    apply Z.ltb_ge in H2. pose proof (extracted_len_pos _ X).
    repeat split; auto.
Qed.

(** X13. A success of [upload_questions] means: the upload passed the
    validations and the requested count is within [1, 50]; extraction
    then generation were each called once, in that order; the response
    carries the non-blank lines of the collaborator's answer and echoes the
    file name, the count and the language. *)
Theorem questions_success_shape
    (file : option UploadFile) (n : Z) (language : str)
    (t : list call) (r : QuestionsResponse) :
  questions_handler file n language = (t, Ok r) ->
  exists f text answer,
    file = Some f /\
    endswith (filename f) (lit ".pdf") = true /\
    (1 <= n <= 50)%Z /\
    (len_bytes (content f) <= MAX_FILE_SIZE_BYTES)%Z /\
    extract (content f) = Ok text /\
    chat_create (questions_request text n language) = Ok (Some answer) /\
    t = [CallExtract (content f); CallQuestions text n language] /\
    r = mk_questions_response true (filename f) (non_blank_lines answer) n
          language (len text) (text_preview_of text) /\
    (0 < qr_extracted_chars r)%Z.
Proof.
  destruct (first_violation questions_order file n) as [c|] eqn:E.
  - erewrite questions_rejects by exact E. discriminate.
  - destruct (questions_order_none _ _ E) as (f & -> & H1 & H2 & H3).
    rewrite questions_run by assumption.
    destruct (extract (content f)) as [text|e0] eqn:X; [|discriminate].
    rewrite questions_cases.
    destruct (chat_create (questions_request text n language))
      as [[a|]|e'] eqn:C; [|discriminate|discriminate].
    cbv zeta. destruct (forallb utf8_encodable _); [|discriminate].
    intros H. injection H as <- <-. exists f, text, a.
    apply Z.ltb_ge in H3. pose proof (extracted_len_pos _ X).
    apply orb_false_iff in H2. destruct H2 as [L U].
    apply Z.ltb_ge in L, U.
    repeat split; auto.
Qed.

(** X14. A success of [test_extract] reports: the length of the extracted
    text twice, a positive one; a word count of at least 1; the first 500
    characters of the text; and its last 500 characters, both being the
    whole text when it has at most 500 characters.  Extraction is the only
    stage called. *)
Theorem extract_only_success_shape
    (file : option UploadFile) (t : list call) (r : ExtractResponse) :
  extract_handler file = (t, Ok r) ->
  exists f text,
    file = Some f /\ extract (content f) = Ok text /\
    t = [CallExtract (content f)] /\
    er_filename r = filename f /\
    er_total_characters r = len text /\
    er_full_text_length r = len text /\
    (0 < len text)%Z /\
    (1 <= er_total_words r)%Z /\
    er_first_500_chars r = firstn 500 text /\
    er_last_500_chars r = skipn (List.length text - 500) text /\
    ((len text <= 500)%Z ->
     er_first_500_chars r = text /\ er_last_500_chars r = text).
Proof.
  destruct (first_violation summary_order file 0) as [c|] eqn:E.
  - rewrite (extract_only_rejects _ 0 E). discriminate.
  - destruct (summary_order_none _ _ E) as (f & -> & H1 & H2).
    rewrite extract_only_run by assumption.
    destruct (extract (content f)) as [text|e0] eqn:X; [|discriminate].
    cbv zeta. destruct (forallb utf8_encodable _); [|discriminate].
    intros H. injection H as <- <-. exists f, text.
    pose proof (extracted_len_pos _ X) as P.
    cbn [er_filename er_total_characters er_full_text_length er_total_words
         er_first_500_chars er_last_500_chars].
    assert (W : (1 <= Z.of_nat (List.length (split_ws text)))%Z).
    { destruct (extract_ok_inv _ _ _ _ _ X) as (t0 & Ht & Hne).
      destruct text as [|c rest]; [congruence|].
      assert (Hc : isspace c = false).
      { apply (@strip_head t0 c rest). now symmetry. }
      pose proof (@split_ws_cons_word c rest Hc).
      destruct (split_ws (c :: rest)); [congruence | simpl; lia]. }
    assert (F : slice_to 500 text = firstn 500 text)
      by (apply (slice_to_nat 500)).
    assert (L : (if (500 <? len text)%Z
                 then slice_from (-500) text else text) =
                skipn (List.length text - 500) text).
    { destruct (Z.ltb_spec 500 (len text)) as [G|G]; unfold len in G.
      - apply (@slice_from_tail 500 text). lia.
      - replace (List.length text - 500)%nat with 0%nat by lia. reflexivity. }
    repeat split; auto.
    + rewrite F. apply firstn_all2. unfold len in *. lia.
    + rewrite L. replace (List.length text - 500)%nat with 0%nat;
        [reflexivity | unfold len in *; lia].
Qed.

(** X15. In a success response of either generation route the preview has
    203 characters when the extracted text has more than 200, and the
    length of the extracted text otherwise; so it has between 1 and 203
    characters, and for a text of 201 or 202 characters it is longer than
    the text. *)
Theorem preview_length_bounds
    (file : option UploadFile) (n : Z) (language : str) (t : list call) :
  (forall r,
      summary_handler file language = (t, Ok r) ->
      len (sr_text_preview r) =
      (if (200 <? sr_extracted_chars r)%Z
       then 203%Z else sr_extracted_chars r) /\
      (1 <= len (sr_text_preview r) <= 203)%Z) /\
  (forall r,
      questions_handler file n language = (t, Ok r) ->
      len (qr_text_preview r) =
      (if (200 <? qr_extracted_chars r)%Z
       then 203%Z else qr_extracted_chars r) /\
      (1 <= len (qr_text_preview r) <= 203)%Z).
Proof.
  split; intros r H.
  - destruct (summary_ok_inv _ _ _ _ _ _ _ _ H)
      as (f & text & s & -> & X & ->).
    cbn [sr_text_preview sr_extracted_chars].
    pose proof (extracted_len_pos _ X). rewrite preview_len.
    destruct (Z.ltb_spec 200 (len text)); split; auto; lia.
  - destruct (questions_ok_inv _ _ _ _ _ _ _ _ _ H)
      as (f & text & qs & -> & X & _ & ->).
    cbn [qr_text_preview qr_extracted_chars].
    pose proof (extracted_len_pos _ X). rewrite preview_len.
    destruct (Z.ltb_spec 200 (len text)); split; auto; lia.
Qed.

End WithCollaborators.

(** *** Concrete runs *)

Local Abbreviation english := (lit "English").
Local Abbreviation hello_fitz := (fitz_returning [Ok (lit " Hello world ")]).
Local Abbreviation no_plumber := (plumber_returning []).
Local Abbreviation broken_fitz :=
  (fitz_raising (lit "cannot open broken document")).
Local Abbreviation broken_plumber := (plumber_raising (lit "No /Root object")).
Local Abbreviation surrogate_fitz := (fitz_returning [Ok [55357%N]]).
Local Abbreviation run_summary :=
  (upload_summary sample_str_HTTPException utf8_stdout
     sample_utf8_error_text).
Local Abbreviation run_questions :=
  (upload_questions sample_str_HTTPException utf8_stdout
     sample_utf8_error_text).
Local Abbreviation run_test_extract :=
  (test_extract sample_str_HTTPException utf8_stdout
     sample_utf8_error_text).
Local Abbreviation run_extract :=
  (extract_text_from_pdf sample_str_HTTPException utf8_stdout).

Lemma small_pdf_fits : (len_bytes (content small_pdf) <= MAX_FILE_SIZE_BYTES)%Z.
Proof. vm_compute. discriminate. Qed.

Lemma summary_failure_cases_witness :
  (exists m,
      (Exception (lit "Error extracting text from PDF: No /Root object")
       = Exception m \/
       Exception (lit "Error extracting text from PDF: No /Root object")
       = LibraryError m) /\
      run_summary broken_fitz broken_plumber (chat_answering three_answers)
        (Some small_pdf) english =
      ([CallExtract (content small_pdf)],
       Raise (HTTPException 500 (PROCESSING_ERROR_PREFIX ++ m)))) /\
  run_summary surrogate_fitz no_plumber (chat_answering (lit "Short."))
    (Some small_pdf) english =
  ([CallExtract (content small_pdf); CallSummary [55357%N] english],
   Raise (HTTPException 500
            (PROCESSING_ERROR_PREFIX ++
             sample_utf8_error_text
               [filename small_pdf; lit "Short."; english;
                text_preview_of [55357%N]]))).
Proof.
  split.
  - apply (proj1 (@summary_failure_cases sample_str_HTTPException
             utf8_stdout sample_utf8_error_text broken_fitz broken_plumber
             (chat_answering three_answers) small_pdf english
             eq_refl small_pdf_fits)).
    reflexivity.
  - apply (proj2 (proj2 (@summary_failure_cases sample_str_HTTPException
             utf8_stdout sample_utf8_error_text surrogate_fitz no_plumber
             (chat_answering (lit "Short.")) small_pdf english
             eq_refl small_pdf_fits))); reflexivity.
Defined.

Example summary_extraction_failure_detail :
  run_summary broken_fitz broken_plumber (chat_answering three_answers)
    (Some small_pdf) english =
  ([CallExtract (content small_pdf)],
   Raise (HTTPException 500
     (lit "Error processing PDF: Error extracting text from PDF: No /Root object"))).
Proof. reflexivity. Qed.

Lemma questions_failure_cases_witness :
  (exists m,
      Exception (lit "Error generating questions with OpenAI: rate limit")
      = Exception (QUESTIONS_ERROR_PREFIX ++ m) /\
      run_questions hello_fitz no_plumber (chat_raising (lit "rate limit"))
        (Some small_pdf) 5 english =
      ([CallExtract (content small_pdf);
        CallQuestions (lit "Hello world") 5 english],
       Raise (HTTPException 500
                (PROCESSING_ERROR_PREFIX ++
                 (QUESTIONS_ERROR_PREFIX ++ m))))) /\
  run_questions hello_fitz no_plumber (chat_answering [55357%N])
    (Some small_pdf) 5 english =
  ([CallExtract (content small_pdf);
    CallQuestions (lit "Hello world") 5 english],
   Raise (HTTPException 500
            (PROCESSING_ERROR_PREFIX ++
             sample_utf8_error_text
               (filename small_pdf :: [[55357%N]] ++
                [english; text_preview_of (lit "Hello world")])))).
Proof.
  assert (N5 : (1 <= 5 <= 50)%Z) by lia.
  split.
  - apply (proj1 (proj2 (@questions_failure_cases sample_str_HTTPException
             utf8_stdout sample_utf8_error_text hello_fitz no_plumber
             (chat_raising (lit "rate limit")) small_pdf 5 english
             eq_refl N5 small_pdf_fits)) (lit "Hello world"));
      reflexivity.
  - apply (proj2 (proj2 (@questions_failure_cases sample_str_HTTPException
             utf8_stdout sample_utf8_error_text hello_fitz no_plumber
             (chat_answering [55357%N]) small_pdf 5 english
             eq_refl N5 small_pdf_fits))); reflexivity.
Defined.

Lemma extract_only_failures_are_500_witness :
  run_test_extract hello_fitz no_plumber (Some upper_pdf) =
  ([], Raise (HTTPException 500
         (lit "Error: " ++
          sample_str_HTTPException 400 (constraint_detail PdfExtension)))).
Proof.
  apply (proj1 (@extract_only_failures_are_500 sample_str_HTTPException
           utf8_stdout sample_utf8_error_text
           hello_fitz no_plumber (Some upper_pdf)) PdfExtension).
  reflexivity.
Defined.

Example extract_only_wrong_extension_detail :
  lit "Error: " ++
  sample_str_HTTPException 400 (constraint_detail PdfExtension) =
  lit "Error: 400: Only PDF files are allowed".
Proof. reflexivity. Qed.

Lemma summary_success_shape_witness :
  exists f text answer,
    Some small_pdf = Some f /\
    endswith (filename f) (lit ".pdf") = true /\
    (len_bytes (content f) <= MAX_FILE_SIZE_BYTES)%Z /\
    run_extract hello_fitz no_plumber (content f) = Ok text /\
    chat_answering (lit " Short. ") (summary_request text english)
    = Ok (Some answer) /\
    [CallExtract (content small_pdf); CallSummary (lit "Hello world") english]
    = [CallExtract (content f); CallSummary text english] /\
    mk_summary_response true (lit "notes.pdf") (lit "Short.") english 11
      (lit "Hello world") =
    mk_summary_response true (filename f) (strip answer) english
      (len text) (text_preview_of text) /\
    (0 < sr_extracted_chars
           (mk_summary_response true (lit "notes.pdf") (lit "Short.")
              english 11 (lit "Hello world")))%Z.
Proof.
  apply (@summary_success_shape sample_str_HTTPException utf8_stdout
           sample_utf8_error_text hello_fitz
           no_plumber (chat_answering (lit " Short. "))
           (Some small_pdf) english).
  reflexivity.
Defined.

Lemma questions_success_shape_witness :
  exists f text answer,
    Some small_pdf = Some f /\
    endswith (filename f) (lit ".pdf") = true /\
    (1 <= 5 <= 50)%Z /\
    (len_bytes (content f) <= MAX_FILE_SIZE_BYTES)%Z /\
    run_extract hello_fitz no_plumber (content f) = Ok text /\
    chat_answering three_answers (questions_request text 5 english)
    = Ok (Some answer) /\
    [CallExtract (content small_pdf);
     CallQuestions (lit "Hello world") 5 english]
    = [CallExtract (content f); CallQuestions text 5 english] /\
    mk_questions_response true (lit "notes.pdf")
      (non_blank_lines three_answers) 5 english 11 (lit "Hello world") =
    mk_questions_response true (filename f) (non_blank_lines answer) 5
      english (len text) (text_preview_of text) /\
    (0 < qr_extracted_chars
           (mk_questions_response true (lit "notes.pdf")
              (non_blank_lines three_answers) 5 english 11
              (lit "Hello world")))%Z.
Proof.
  apply (@questions_success_shape sample_str_HTTPException utf8_stdout
           sample_utf8_error_text hello_fitz
           no_plumber (chat_answering three_answers)
           (Some small_pdf) 5 english).
  reflexivity.
Defined.

Lemma extract_only_success_shape_witness :
  exists f text,
    Some small_pdf = Some f /\
    run_extract hello_fitz no_plumber (content f) = Ok text /\
    [CallExtract (content small_pdf)] = [CallExtract (content f)] /\
    lit "notes.pdf" = filename f /\
    11%Z = len text /\ 11%Z = len text /\ (0 < len text)%Z /\
    (1 <= 2)%Z /\
    lit "Hello world" = firstn 500 text /\
    lit "Hello world" = skipn (List.length text - 500) text /\
    ((len text <= 500)%Z ->
     lit "Hello world" = text /\ lit "Hello world" = text).
Proof.
  apply (@extract_only_success_shape sample_str_HTTPException utf8_stdout
           sample_utf8_error_text hello_fitz
           no_plumber (Some small_pdf) [CallExtract (content small_pdf)]
           (mk_extract_response true (lit "notes.pdf") 11 2
              (lit "Hello world") (lit "Hello world") 11)).
  reflexivity.
Defined.

Lemma preview_length_bounds_witness :
  len (repeat 97%N 200 ++ lit "...") =
  (if (200 <? 201)%Z then 203%Z else 201%Z) /\
  (1 <= len (repeat 97%N 200 ++ lit "...") <= 203)%Z.
Proof.
  apply (proj1 (@preview_length_bounds sample_str_HTTPException
           utf8_stdout sample_utf8_error_text
           (fitz_returning [Ok (repeat 97%N 201)]) no_plumber
           (chat_answering (lit " Short. ")) (Some small_pdf) 0 english
           [CallExtract (content small_pdf);
            CallSummary (repeat 97%N 201) english])
           (mk_summary_response true (lit "notes.pdf") (lit "Short.")
              english 201 (repeat 97%N 200 ++ lit "..."))).
  reflexivity.
Defined.

End RouteFacts.
